(** * pwndbg MCP server: a shallow embedding of [server.py]

    The server keeps one GDB child process in two module globals
    ([gdb_process], [is_connected]) and exposes tool functions that write a
    command line to the child and rebuild its answer character by character
    until the prompt [pwndbg>] shows up, the child goes silent, the output
    limit is hit or five seconds have passed.

    Modelling choices.
    - A Python [str] is a [string]; its characters are [ascii] values.  The
      fixed messages of the server are kept as the UTF-8 bytes of the source
      text.  Character classes ([str.isspace], [str.lower]) are the ones
      Python uses below code point 128; on text outside ASCII, [len],
      [lower] and [isspace] see bytes where Python sees code points.
    - Wall-clock time is an integer number of milliseconds: [5.0] is [5000],
      [0.1] is [100], [0.05] is [50], [0.01] is [10].  Only [select] and
      [time.sleep] let time pass.
    - The child process is the pipe the server sees: the characters still to
      come on its stdout, each with the time from which it can be read, what
      happens after the last one (silence, end of file, a fault), and
      whether writing to its stdin or terminating it raises.  [select]
      reports the pipe readable exactly when [read(1)] would not block.
    - Tool functions run in a state-and-exception monad over the [World];
      [try ... except Exception] is [try_except].
    - A [while] loop is a function with a bound on its iterations.  The
      bound used, [loop_bound], is never reached ([read_loop_settles],
      [startup_loop_settles]), and more iterations change no result
      ([read_loop_more_fuel]). *)

From Stdlib Require Import String Ascii List ZArith Lia Bool DecimalString DecimalNat.
Import ListNotations.
Open Scope string_scope.
Open Scope list_scope.
Open Scope Z_scope.

(* ================================================================== *)
(** * Python string operations used by the server *)
(* ================================================================== *)

Module Py.

Definition nl : ascii := "010"%char.
Definition cr : ascii := "013"%char.

(** The one-character string, as returned by [read(1)]. *)
Definition chr (c : ascii) : string := String c EmptyString.

(** Truth value of a string in an [if]: non-empty. *)
Definition truthy (s : string) : bool :=
  match s with
  | EmptyString => false
  | String _ _ => true
  end.

(** [str.isspace] on one character, for code points below 128:
    tab, line feed, vertical tab, form feed, carriage return, the four
    separators 28..31 and the space. *)
Definition isspace (c : ascii) : bool :=
  let n := nat_of_ascii c in
  ((9 <=? n)%nat && (n <=? 13)%nat) || ((28 <=? n)%nat && (n <=? 32)%nat).

Definition lower_char (c : ascii) : ascii :=
  let n := nat_of_ascii c in
  if ((65 <=? n)%nat && (n <=? 90)%nat) then ascii_of_nat (n + 32) else c.

(** [s.lower()] *)
Fixpoint lower (s : string) : string :=
  match s with
  | EmptyString => EmptyString
  | String c s' => String (lower_char c) (lower s')
  end.

(** Removal of the trailing characters that satisfy [f]. *)
Fixpoint rstrip_by (f : ascii -> bool) (s : string) : string :=
  match s with
  | EmptyString => EmptyString
  | String c s' =>
      match rstrip_by f s' with
      | EmptyString => if f c then EmptyString else chr c
      | String d r => String c (String d r)
      end
  end.

(** Removal of the leading characters that satisfy [f]. *)
Fixpoint lstrip_by (f : ascii -> bool) (s : string) : string :=
  match s with
  | EmptyString => EmptyString
  | String c s' => if f c then lstrip_by f s' else s
  end.

(** [s.rstrip('\n\r')] *)
Definition rstrip_nl (s : string) : string :=
  rstrip_by (fun c => Ascii.eqb c nl || Ascii.eqb c cr) s.

(** [s.rstrip()] *)
Definition rstrip (s : string) : string := rstrip_by isspace s.

(** [s.strip()] *)
Definition strip (s : string) : string := lstrip_by isspace (rstrip_by isspace s).

(** [s.endswith(suf)]: [suf] is [s] itself or a suffix of its tail. *)
Fixpoint endswith (s suf : string) : bool :=
  String.eqb s suf ||
  match s with
  | EmptyString => false
  | String _ s' => endswith s' suf
  end.

(** [pat in s]: [pat] is a prefix of [s] or occurs in its tail. *)
Fixpoint contains (pat s : string) : bool :=
  String.prefix pat s ||
  match s with
  | EmptyString => false
  | String _ s' => contains pat s'
  end.

(** [s.split()]: the maximal runs of non-whitespace characters.  [cur] is
    the run being read. *)
Fixpoint split_from (cur s : string) : list string :=
  match s with
  | EmptyString => if truthy cur then [cur] else []
  | String c s' =>
      if isspace c
      then (if truthy cur then cur :: split_from EmptyString s'
            else split_from EmptyString s')
      else split_from (cur ++ chr c) s'
  end.

Definition split (s : string) : list string := split_from EmptyString s.

(** [sep.join(xs)] *)
Definition join (sep : string) (xs : list string) : string := String.concat sep xs.

(** [x in xs] for a collection of strings. *)
Definition mem (x : string) (xs : list string) : bool :=
  existsb (String.eqb x) xs.

(** [sorted(xs)] on strings: insertion into an ordered list, by code point
    order. *)
Fixpoint insert_sorted (x : string) (xs : list string) : list string :=
  match xs with
  | [] => [x]
  | y :: ys => if String.leb x y then x :: y :: ys else y :: insert_sorted x ys
  end.

Definition sorted (xs : list string) : list string :=
  fold_right insert_sorted [] xs.

End Py.

(* ================================================================== *)
(** * The host: child process, clock, file system *)
(* ================================================================== *)

(** An exception of class [Exception], the only kind the host operations
    raise here; [str(e)] is its message. *)
Inductive Exn : Type := Exception (msg : string).

Definition str_of_exn (e : Exn) : string :=
  match e with Exception m => m end.

(** What the child's stdout does once the pending characters are read. *)
Inductive Ending : Type :=
| Silent                        (* open, never readable again *)
| Eof (at_ms : Z)               (* closed at that time: [read(1)] returns the empty string *)
| Broken (at_ms : Z) (e : Exn). (* from that time [read(1)] raises *)

(** The [subprocess.Popen] object held in [gdb_process], with the state of
    the child behind it. *)
Record Popen : Type := mkPopen {
  stdin_fault : option Exn;            (* writing and flushing raise it *)
  stdout_pending : list (Z * ascii);   (* characters to come, each readable from its time on *)
  stdout_end : Ending;
  exit_time : option Z;                (* [poll()] is not [None] from that time on *)
  terminate_fault : option Exn         (* [terminate()] raises it *)
}.

(** What the server does to the outside, in order. *)
Inductive Event : Type :=
| EvSpawn (argv : list string)
| EvWrite (data : string)
| EvFlush
| EvTerminate.

(** The parts of the host the server only asks. *)
Record Env : Type := mkEnv {
  run_which_gdb : Exn + Z;                    (* [subprocess.run(["which","gdb"])]: its return code *)
  home_dir : Exn + string;                    (* [Path.home()] *)
  Path_exists : string -> Exn + bool;         (* [Path(p).exists()] *)
  os_path_exists : string -> bool;            (* [os.path.exists(p)] *)
  spawn : list string -> Exn + Popen          (* [subprocess.Popen(argv, ...)] *)
}.

Record World : Type := mkWorld {
  env : Env;
  now : Z;
  trace : list Event;
  gdb_process : option Popen;   (* module global *)
  is_connected : bool           (* module global *)
}.

Definition set_now (t : Z) (w : World) : World :=
  mkWorld (env w) t (trace w) (gdb_process w) (is_connected w).
Definition log (ev : Event) (w : World) : World :=
  mkWorld (env w) (now w) (trace w ++ [ev]) (gdb_process w) (is_connected w).
Definition set_gdb_process (p : option Popen) (w : World) : World :=
  mkWorld (env w) (now w) (trace w) p (is_connected w).
Definition set_is_connected (b : bool) (w : World) : World :=
  mkWorld (env w) (now w) (trace w) (gdb_process w) b.

Definition set_stdout (l : list (Z * ascii)) (p : Popen) : Popen :=
  mkPopen (stdin_fault p) l (stdout_end p) (exit_time p) (terminate_fault p).

(* ================================================================== *)
(** * State and exception monad *)
(* ================================================================== *)

(** A call returns a value, raises, or does not return at all. *)
Inductive Outcome (A : Type) : Type :=
| Ret (a : A)
| Raise (e : Exn)
| Diverge.
Arguments Ret {A} a.
Arguments Raise {A} e.
Arguments Diverge {A}.

Definition M (A : Type) : Type := World -> Outcome A * World.

Definition ret {A} (a : A) : M A := fun w => (Ret a, w).
Definition raise {A} (e : Exn) : M A := fun w => (Raise e, w).
Definition diverge {A} : M A := fun w => (Diverge, w).

Definition bind {A B} (m : M A) (k : A -> M B) : M B :=
  fun w =>
    match m w with
    | (Ret a, w') => k a w'
    | (Raise e, w') => (Raise e, w')
    | (Diverge, w') => (Diverge, w')
    end.

(** [try: body except Exception as e: handler(e)] *)
Definition try_except {A} (body : M A) (handler : Exn -> M A) : M A :=
  fun w =>
    match body w with
    | (Raise e, w') => handler e w'
    | r => r
    end.

Definition gets {A} (f : World -> A) : M A := fun w => (Ret (f w), w).
Definition modify (f : World -> World) : M unit := fun w => (Ret tt, f w).

Declare Scope monad_scope.
Delimit Scope monad_scope with monad.
Notation "x <- m ;; k" := (bind m (fun x => k))
  (at level 61, m at next level, right associativity) : monad_scope.
Notation "m ;; k" := (bind m (fun _ => k))
  (at level 61, right associativity) : monad_scope.
Open Scope monad_scope.

(* ================================================================== *)
(** * Primitive operations on the host *)
(* ================================================================== *)

Module Host.

(** [time.time()] *)
Definition time_time : M Z := gets now.

(** [time.sleep(d)] *)
Definition time_sleep (d : Z) : M unit := modify (fun w => set_now (now w + d) w).

(** Reading an attribute of the object in [gdb_process]: [None] has none. *)
Definition the_process (attr : string) : M Popen :=
  fun w =>
    match gdb_process w with
    | Some p => (Ret p, w)
    | None =>
        (Raise (Exception ("'NoneType' object has no attribute '" ++ attr ++ "'")), w)
    end.

(** [gdb_process.stdin.write(data)] *)
Definition stdin_write (data : string) : M unit :=
  p <- the_process "stdin";;
  match stdin_fault p with
  | Some e => raise e
  | None => modify (log (EvWrite data))
  end.

(** [gdb_process.stdin.flush()] *)
Definition stdin_flush : M unit :=
  p <- the_process "stdin";;
  match stdin_fault p with
  | Some e => raise e
  | None => modify (log EvFlush)
  end.

(** The time from which the child's stdout is readable (a character, the
    end of file or a fault is there), if ever. *)
Definition next_readable (p : Popen) : option Z :=
  match stdout_pending p with
  | (t, _) :: _ => Some t
  | [] =>
      match stdout_end p with
      | Silent => None
      | Eof t => Some t
      | Broken t _ => Some t
      end
  end.

(** [ready, _, _ = select.select([gdb_process.stdout], [], [], d)]:
    returns as soon as the pipe is readable, or after [d]. *)
Definition select_stdout (d : Z) : M bool :=
  p <- the_process "stdout";;
  t0 <- gets now;;
  match next_readable p with
  | Some t =>
      if t <=? t0 + d
      then modify (set_now (Z.max t0 t));; ret true
      else modify (set_now (t0 + d));; ret false
  | None => modify (set_now (t0 + d));; ret false
  end.

(** [gdb_process.stdout.read(1)]: blocks until a character, the end of
    file or a fault is there. *)
Definition stdout_read1 : M string :=
  p <- the_process "stdout";;
  t0 <- gets now;;
  match stdout_pending p with
  | (t, c) :: rest =>
      modify (set_now (Z.max t0 t));;
      modify (set_gdb_process (Some (set_stdout rest p)));;
      ret (Py.chr c)
  | [] =>
      match stdout_end p with
      | Silent => diverge
      | Eof t => modify (set_now (Z.max t0 t));; ret EmptyString
      | Broken t e => modify (set_now (Z.max t0 t));; raise e
      end
  end.

(** [gdb_process.terminate()] *)
Definition terminate : M unit :=
  p <- the_process "terminate";;
  match terminate_fault p with
  | Some e => raise e
  | None => modify (log EvTerminate)
  end.

(** [gdb_process.poll()]: the return code once the child has exited. *)
Definition poll : M (option Z) :=
  p <- the_process "poll";;
  t0 <- gets now;;
  ret (match exit_time p with
       | Some t => if t <=? t0 then Some 0 else None
       | None => None
       end).

(** [subprocess.Popen(argv, stdin=PIPE, stdout=PIPE, stderr=STDOUT, ...)] *)
Definition Popen_call (argv : list string) : M Popen :=
  fun w =>
    match spawn (env w) argv with
    | inl e => (Raise e, w)
    | inr p => (Ret p, log (EvSpawn argv) w)
    end.

(** [subprocess.run(["which", "gdb"], ...).returncode] *)
Definition which_gdb : M Z :=
  fun w =>
    match run_which_gdb (env w) with
    | inl e => (Raise e, w)
    | inr rc => (Ret rc, w)
    end.

(** [Path.home()] *)
Definition Path_home : M string :=
  fun w =>
    match home_dir (env w) with
    | inl e => (Raise e, w)
    | inr h => (Ret h, w)
    end.

(** [path.exists()] on a [Path] *)
Definition path_exists (p : string) : M bool :=
  fun w =>
    match Path_exists (env w) p with
    | inl e => (Raise e, w)
    | inr b => (Ret b, w)
    end.

(** [any(path.exists() for path in paths)] *)
Fixpoint any_exists (paths : list string) : M bool :=
  match paths with
  | [] => ret false
  | p :: ps => b <- path_exists p;; if b then ret true else any_exists ps
  end.

End Host.

(* ================================================================== *)
(** * The server *)
(* ================================================================== *)

Module Server.
Import Host.

Definition NL : string := Py.chr Py.nl.

Definition ALLOWED_COMMANDS : list string :=
  [ "heap"; "bins"; "vis_heap_chunks"; "heap chunks"; "chunk";
    "fastbins"; "smallbins"; "largebins"; "unsortedbin"; "tcache"; "arena";
    "checksec"; "vmmap"; "canary"; "piebase"; "procinfo";
    "registers"; "regs"; "stack"; "telescope"; "context"; "hexdump";
    "search"; "find"; "got"; "plt"; "rop"; "ropper"; "strings";
    "disasm"; "disassemble"; "nearpc"; "pdisass";
    "break"; "continue"; "step"; "next"; "finish"; "run";
    "info"; "print"; "x"; "examine"; "backtrace"; "bt"; "frame";
    "set"; "show"; "list"; "file"; "load" ].

Definition timeout : Z := 5000.
Definition prompt : string := "pwndbg>".
Definition limit_marker : string := "... (출력 제한: 200줄)".

Definition msg_not_connected : string :=
  "Error: GDB 세션이 연결되지 않음. start_debug_session()을 먼저 실행하세요.".

(** Which statement left the [while] loop.  The source does not keep this;
    it only labels the exits. *)
Inductive Exit : Type :=
| ExitDeadline      (* the loop condition failed *)
| ExitPromptLine    (* a completed line ends with the prompt *)
| ExitPromptBuffer  (* the buffer ends with the prompt *)
| ExitLimit         (* more than 200 lines *)
| ExitEof           (* [read(1)] returned the empty string *)
| ExitIdle.         (* silence confirmed after output *)

(** The [while] loop of [_execute_safe_command].  [fuel] bounds the number
    of iterations; [loop_bound] below is never reached. *)
Fixpoint read_loop (fuel : nat) (start_time : Z)
    (output_lines : list string) (buffer : string)
  : M (Exit * list string * string) :=
  match fuel with
  | O => diverge
  | S fuel' =>
    t <- time_time;;
    if t - start_time <? timeout then
      ready <- select_stdout 100;;
      if (ready : bool) then
        char <- stdout_read1;;
        if Py.truthy char then
          let buffer := (buffer ++ char)%string in
          if String.eqb char NL then
            let line := Py.rstrip_nl buffer in
            let output_lines :=
              if Py.truthy line then output_lines ++ [line] else output_lines in
            let buffer := EmptyString in
            if Py.endswith line prompt then ret (ExitPromptLine, output_lines, buffer)
            else if (200 <? length output_lines)%nat
            then ret (ExitLimit, output_lines ++ [limit_marker], buffer)
            else read_loop fuel' start_time output_lines buffer
          else if Py.endswith buffer prompt then
            let output_lines :=
              if Py.truthy (Py.strip buffer)
              then output_lines ++ [Py.rstrip buffer] else output_lines in
            ret (ExitPromptBuffer, output_lines, buffer)
          else if (200 <? length output_lines)%nat
          then ret (ExitLimit, output_lines ++ [limit_marker], buffer)
          else read_loop fuel' start_time output_lines buffer
        else ret (ExitEof, output_lines, buffer)
      else
        if (negb (Nat.eqb (length output_lines) 0)) && String.eqb buffer EmptyString then
          time_sleep 50;;
          ready <- select_stdout 10;;
          if (ready : bool)
          then read_loop fuel' start_time output_lines buffer
          else ret (ExitIdle, output_lines, buffer)
        else
          time_sleep 100;;
          read_loop fuel' start_time output_lines buffer
    else ret (ExitDeadline, output_lines, buffer)
  end.

(** Enough iterations for any run of either loop: every iteration reads a
    pending character or lets at least 150 ms of the 5000 pass. *)
Definition loop_bound (w : World) : nat :=
  match gdb_process w with
  | Some p => (length (stdout_pending p) + 40)%nat
  | None => 40%nat
  end.

(** After the loop: the rest of the buffer, then the result text. *)
Definition finish_output (command : string)
    (output_lines : list string) (buffer : string) : string :=
  let output_lines :=
    if Py.truthy (Py.strip buffer)
    then output_lines ++ [Py.strip buffer] else output_lines in
  match output_lines with
  | [] => ("명령어 '" ++ command ++ "' 실행됨 (응답 없음)")%string
  | _ :: _ =>
      let result := Py.join NL output_lines in
      if Py.truthy (Py.strip result) then result
      else ("명령어 '" ++ command ++ "' 실행 완료")%string
  end.

(** The body of the [try] up to the end of the loop. *)
Definition send_and_frame (command : string) : M (Exit * list string * string) :=
  stdin_write (command ++ NL);;
  stdin_flush;;
  start_time <- time_time;;
  fuel <- gets loop_bound;;
  read_loop fuel start_time [] EmptyString.

Definition _execute_safe_command (command : string) : M string :=
  connected <- gets is_connected;;
  if negb connected then ret msg_not_connected
  else
    try_except
      (r <- send_and_frame command;;
       let '(_, output_lines, buffer) := r in
       ret (finish_output command output_lines buffer))
      (fun e => ret ("명령어 실행 실패: " ++ str_of_exn e)%string).

Definition check_pwndbg_connection : M string :=
  try_except
    (rc <- which_gdb;;
     if negb (rc =? 0) then ret "Error: GDB가 설치되지 않음"
     else
       home1 <- Path_home;;
       home2 <- Path_home;;
       let pwndbg_paths :=
         [ (home1 ++ "/.gdbinit")%string; "/usr/share/pwndbg"; (home2 ++ "/pwndbg")%string ] in
       pwndbg_found <- any_exists pwndbg_paths;;
       if negb pwndbg_found then ret "Warning: pwndbg가 설치되지 않았을 수 있음"
       else
         connected <- gets is_connected;;
         if (connected : bool)
         then ret "✓ pwndbg MCP 서버 연결됨 (GDB 세션 활성)"
         else ret "✓ pwndbg 사용 가능 (GDB 세션 비활성)")
    (fun e => ret ("Error: " ++ str_of_exn e)%string).

Definition msg_already_active : string :=
  "이미 GDB 세션이 활성화되어 있습니다. stop_debug_session()을 먼저 실행하세요.".

(** The [while] loop of [start_debug_session]: read up to the first
    prompt. *)
Fixpoint startup_loop (fuel : nat) (start_time : Z) (buffer : string) : M string :=
  match fuel with
  | O => diverge
  | S fuel' =>
    t <- time_time;;
    if t - start_time <? timeout then
      ready <- select_stdout 100;;
      if (ready : bool) then
        char <- stdout_read1;;
        if Py.truthy char then
          let buffer := (buffer ++ char)%string in
          if Py.endswith buffer prompt then ret buffer
          else startup_loop fuel' start_time buffer
        else ret buffer
      else
        time_sleep 100;;
        startup_loop fuel' start_time buffer
    else ret buffer
  end.

Definition start_debug_session (binary_path : string) : M string :=
  connected <- gets is_connected;;
  if (connected : bool) then ret msg_already_active
  else
    found <- gets (fun w => os_path_exists (env w) binary_path);;
    if Py.truthy binary_path && negb found
    then ret ("Error: 바이너리 파일을 찾을 수 없습니다: " ++ binary_path)%string
    else
      try_except
        (let gdb_cmd := ["gdb"; "-q"] in
         let gdb_cmd := if Py.truthy binary_path then gdb_cmd ++ [binary_path] else gdb_cmd in
         let success_msg :=
           if Py.truthy binary_path
           then ("✓ GDB 세션 시작됨 (바이너리: " ++ binary_path ++ ")")%string
           else "✓ GDB 세션 시작됨 (바이너리 없음)" in
         let gdb_cmd :=
           gdb_cmd ++ ["-ex"; "set confirm off"; "-ex"; "set pagination off"] in
         p <- Popen_call gdb_cmd;;
         modify (set_gdb_process (Some p));;
         start_time <- time_time;;
         fuel <- gets loop_bound;;
         _ <- startup_loop fuel start_time EmptyString;;
         rc <- poll;;
         match rc with
         | Some _ =>
             modify (set_gdb_process None);;
             modify (set_is_connected false);;
             ret "Error: GDB 프로세스가 예기치 않게 종료되었습니다."
         | None =>
             modify (set_is_connected true);;
             ret success_msg
         end)
        (fun e =>
           modify (set_gdb_process None);;
           modify (set_is_connected false);;
           ret ("GDB 세션 시작 실패: " ++ str_of_exn e)%string).

Definition msg_not_active : string := "GDB 세션이 활성화되어 있지 않습니다.".
Definition msg_stopped : string := "✓ GDB 세션이 종료되었습니다.".

Definition stop_debug_session : M string :=
  connected <- gets is_connected;;
  if negb connected then ret msg_not_active
  else
    try_except
      (proc <- gets gdb_process;;
       match proc with
       | Some _ => terminate
       | None => ret tt
       end;;
       modify (set_gdb_process None);;
       modify (set_is_connected false);;
       ret msg_stopped)
      (fun e => ret ("GDB 세션 종료 실패: " ++ str_of_exn e)%string).

(** ** Fixed tools *)

Definition heap : M string := _execute_safe_command "heap".
Definition bins : M string := _execute_safe_command "bins".
Definition vis : M string := _execute_safe_command "vis_heap_chunks".

Definition msg_no_address : string := "Error: 주소를 입력해주세요".
Definition msg_no_pattern : string := "Error: 검색할 패턴을 입력해주세요".

Definition malloc_chunk (address : string) : M string :=
  if negb (Py.truthy address) then ret msg_no_address
  else _execute_safe_command ("chunk " ++ address).

Definition checksec : M string := _execute_safe_command "checksec".
Definition vmmap : M string := _execute_safe_command "vmmap".
Definition canary : M string := _execute_safe_command "canary".
Definition regs : M string := _execute_safe_command "registers".
Definition stack : M string := _execute_safe_command "stack".

Definition telescope (address : string) : M string :=
  if Py.truthy address then _execute_safe_command ("telescope " ++ address)
  else _execute_safe_command "telescope".

Definition context : M string := _execute_safe_command "context".

Definition search (pattern : string) : M string :=
  if negb (Py.truthy pattern) then ret msg_no_pattern
  else _execute_safe_command ("search " ++ pattern).

Definition find (pattern : string) : M string :=
  if negb (Py.truthy pattern) then ret msg_no_pattern
  else _execute_safe_command ("find " ++ pattern).

Definition got : M string := _execute_safe_command "got".
Definition plt : M string := _execute_safe_command "plt".
Definition rop : M string := _execute_safe_command "rop".

(** ** Free-form commands *)

Definition dangerous_patterns : list string :=
  [ "rm"; "del"; "format"; "mkfs"; "dd if="; "dd of=";
    "sudo"; "su"; "chmod +x"; "wget"; "curl"; "nc "; "netcat";
    "python -c"; "perl -e"; "ruby -e"; "bash -c"; "sh -c";
    "$("; "`"; "&&"; "||"; ";"; "|"; ">"; ">>"; "<" ].

Definition msg_not_whitelisted : string :=
  ("Error: 허용되지 않은 명령어입니다. 사용 가능한 명령어: "
   ++ Py.join ", " (Py.sorted ALLOWED_COMMANDS))%string.

Definition msg_dangerous (pattern : string) : string :=
  ("Error: 보안상 위험한 패턴이 감지되었습니다: " ++ pattern)%string.

Definition msg_too_long : string := "Error: 명령어가 너무 깁니다 (최대 200자)".

Definition execute_custom_command (command : string) : M string :=
  if negb (Py.truthy command) then ret "Error: 명령어를 입력해주세요"
  else
    let command_parts := Py.split command in
    match command_parts with
    | [] => ret "Error: 올바른 명령어를 입력해주세요"
    | base_command :: _ =>
        if negb (Py.mem base_command ALLOWED_COMMANDS) then ret msg_not_whitelisted
        else
          match List.find (fun pattern => Py.contains pattern (Py.lower command))
                          dangerous_patterns with
          | Some pattern => ret (msg_dangerous pattern)
          | None =>
              if (200 <? String.length command)%nat then ret msg_too_long
              else
                try_except
                  (result <- _execute_safe_command command;;
                   ret ("✓ 사용자 정의 명령어 실행됨: " ++ command ++ NL ++ NL ++ result)%string)
                  (fun e => ret ("사용자 정의 명령어 실행 실패: " ++ str_of_exn e)%string)
          end
    end.

Definition commands_by_category : list (string * list string) :=
  [ ("힙 분석", ["heap"; "bins"; "vis_heap_chunks"; "chunk"; "fastbins"; "smallbins";
                 "largebin"; "unsortedbin"; "tcache"; "arena"]);
    ("보안 분석", ["checksec"; "vmmap"; "canary"; "piebase"; "procinfo"]);
    ("레지스터/메모리", ["registers"; "regs"; "stack"; "telescope"; "context"; "hexdump"]);
    ("검색/분석", ["search"; "find"; "got"; "plt"; "rop"; "ropper"; "strings"]);
    ("디스어셈블리", ["disasm"; "disassemble"; "nearpc"; "pdisass"]);
    ("실행 제어", ["break"; "continue"; "step"; "next"; "finish"; "run"]);
    ("기본 GDB", ["info"; "print"; "x"; "examine"; "backtrace"; "bt"; "frame";
                  "set"; "show"; "list"; "file"; "load"]) ].

Definition list_available_commands : M string :=
  let result := ("=== 사용 가능한 pwndbg 명령어 목록 ===" ++ NL ++ NL)%string in
  let result :=
    fold_left
      (fun (result : string) (entry : string * list string) =>
         let result := (result ++ "📋 " ++ fst entry ++ ":" ++ NL)%string in
         let result :=
           fold_left (fun (result : string) (cmd : string) =>
                        (result ++ "  • " ++ cmd ++ NL)%string)
                     (snd entry) result in
         (result ++ NL)%string)
      commands_by_category result in
  let result :=
    (result ++ "⚠️ 참고: execute_custom_command() 툴을 사용하여 위 명령어들을 직접 실행할 수 있습니다." ++ NL)%string in
  let result := (result ++ "하지만 각 기능별로 전용 툴을 사용하는 것을 권장합니다.")%string in
  ret result.

(** ** The tools a caller can invoke *)

Inductive Tool : Type :=
| T_check_pwndbg_connection
| T_start_debug_session (binary_path : string)
| T_stop_debug_session
| T_heap | T_bins | T_vis
| T_malloc_chunk (address : string)
| T_checksec | T_vmmap | T_canary
| T_regs | T_stack
| T_telescope (address : string)
| T_context
| T_search (pattern : string)
| T_find (pattern : string)
| T_got | T_plt | T_rop
| T_execute_custom_command (command : string)
| T_list_available_commands.

Definition call (t : Tool) : M string :=
  match t with
  | T_check_pwndbg_connection => check_pwndbg_connection
  | T_start_debug_session binary_path => start_debug_session binary_path
  | T_stop_debug_session => stop_debug_session
  | T_heap => heap
  | T_bins => bins
  | T_vis => vis
  | T_malloc_chunk address => malloc_chunk address
  | T_checksec => checksec
  | T_vmmap => vmmap
  | T_canary => canary
  | T_regs => regs
  | T_stack => stack
  | T_telescope address => telescope address
  | T_context => context
  | T_search pattern => search pattern
  | T_find pattern => find pattern
  | T_got => got
  | T_plt => plt
  | T_rop => rop
  | T_execute_custom_command command => execute_custom_command command
  | T_list_available_commands => list_available_commands
  end.

End Server.

(* ================================================================== *)
(** * The loop body without the host *)
(* ================================================================== *)

Module Framer.
Import Host Server.

(** Outcome of handling one character. *)
Inductive Step : Type :=
| Continue (output_lines : list string) (buffer : string)
| Stop (e : Exit) (output_lines : list string) (buffer : string).

(** What one iteration of [read_loop] does with the character [c] it has
    read: the [if char:] branch, as a function. *)
Definition on_char (output_lines : list string) (buffer : string) (c : ascii) : Step :=
  let char := Py.chr c in
  let buffer := (buffer ++ char)%string in
  if String.eqb char NL then
    let line := Py.rstrip_nl buffer in
    let output_lines :=
      if Py.truthy line then output_lines ++ [line] else output_lines in
    if Py.endswith line prompt then Stop ExitPromptLine output_lines EmptyString
    else if (200 <? length output_lines)%nat
    then Stop ExitLimit (output_lines ++ [limit_marker]) EmptyString
    else Continue output_lines EmptyString
  else if Py.endswith buffer prompt then
    Stop ExitPromptBuffer
         (if Py.truthy (Py.strip buffer)
          then output_lines ++ [Py.rstrip buffer] else output_lines)
         buffer
  else if (200 <? length output_lines)%nat
  then Stop ExitLimit (output_lines ++ [limit_marker]) buffer
  else Continue output_lines buffer.

(** Handling a run of characters, up to the first exit; with the
    characters left unread. *)
Fixpoint feed (cs : list (Z * ascii)) (output_lines : list string) (buffer : string)
  : Step * list (Z * ascii) :=
  match cs with
  | [] => (Continue output_lines buffer, [])
  | (_, c) :: cs' =>
      match on_char output_lines buffer c with
      | Continue output_lines' buffer' => feed cs' output_lines' buffer'
      | Stop e output_lines' buffer' => (Stop e output_lines' buffer', cs')
      end
  end.

(** The world once the pending output of the child [p] is down to [l]. *)
Definition with_pending (p : Popen) (l : list (Z * ascii)) (w : World) : World :=
  set_gdb_process (Some (set_stdout l p)) w.

(** Every character of [cs] is readable at time [t]. *)
Definition available (t : Z) (cs : list (Z * ascii)) : Prop :=
  Forall (fun tc => fst tc <= t) cs.

(** The characters of a pending output, without their times. *)
Definition text_of (cs : list (Z * ascii)) : string :=
  string_of_list_ascii (map snd cs).

(** A line as the child writes it: its characters with their times, and
    the time of its line feed. *)
Definition Line : Type := (list (Z * ascii) * Z)%type.

Fixpoint lines_stream (ls : list Line) : list (Z * ascii) :=
  match ls with
  | [] => []
  | (cs, t) :: ls' => cs ++ (t, Py.nl) :: lines_stream ls'
  end.

(** The line as [read_loop] stores it. *)
Definition line_text (l : Line) : string := Py.rstrip_nl (text_of (fst l)).

(** One line, not empty once its terminator is off, with no prompt in
    it. *)
Definition line_ok (l : Line) : Prop :=
  Py.contains NL (text_of (fst l)) = false /\
  Py.contains prompt (text_of (fst l)) = false /\
  Py.truthy (line_text l) = true.

(** [line_ok] and [available] as tests. *)
Definition line_okb (l : Line) : bool :=
  negb (Py.contains NL (text_of (fst l)))
  && negb (Py.contains prompt (text_of (fst l)))
  && Py.truthy (line_text l).

Definition availableb (t : Z) (cs : list (Z * ascii)) : bool :=
  forallb (fun tc => fst tc <=? t) cs.

(** A call that returns or raises. *)
Definition settles {A} (r : Outcome A * World) : Prop :=
  match fst r with
  | Diverge => False
  | _ => True
  end.

(** A call that returns. *)
Definition returns {A} (r : Outcome A * World) : Prop :=
  match fst r with
  | Ret _ => True
  | _ => False
  end.

(** The number of characters still to come from the child. *)
Definition pending_len (w : World) : nat :=
  match gdb_process w with
  | Some p => length (stdout_pending p)
  | None => O
  end.

(** The iterations left are enough for the characters pending and the
    time left before the deadline: one per character, one per 150 ms and
    one for the last test of the loop condition. *)
Definition enough_fuel (fuel : nat) (start_time : Z) (w : World) : Prop :=
  (pending_len w + 1 <= fuel)%nat /\
  start_time + timeout - now w
    <= 150 * (Z.of_nat fuel - Z.of_nat (pending_len w) - 1).

(** The pipe of the session will be readable at some time. *)
Definition can_read (w : World) : Prop :=
  exists p, gdb_process w = Some p /\ next_readable p <> None.

(** A computation that records no event. *)
Definition keeps_trace {A} (m : M A) : Prop :=
  forall w, trace (snd (m w)) = trace w.

End Framer.

(* ================================================================== *)
(** * Concrete hosts and children used in examples *)
(* ================================================================== *)

Module Examples.
Import Server Framer.

(** All characters of [s], readable from time [t] on. *)
Definition emit_at (t : Z) (s : string) : list (Z * ascii) :=
  map (fun c => (t, c)) (list_ascii_of_string s).

(** A child with healthy pipes that has already written [out]. *)
Definition child (out : string) (e : Ending) : Popen :=
  mkPopen None (emit_at 0 out) e None None.

(** A host with gdb and pwndbg installed, where [Popen] starts a child
    that prints a prompt. *)
Definition env0 : Env :=
  mkEnv (inr 0) (inr "/root") (fun _ => inr true) (fun _ => true)
        (fun _ => inr (child "pwndbg> " Silent)).

(** A session that is connected to the child [p]. *)
Definition ready_world (p : Popen) : World := mkWorld env0 0 [] (Some p) true.

(** No session. *)
Definition idle_world : World := mkWorld env0 0 [] None false.

(** The child of the framing example: two lines and a prompt. *)
Definition framing_output : string :=
  ("foo" ++ NL ++ "result-line" ++ NL ++ "pwndbg> ")%string.

Definition framing_world : World := ready_world (child framing_output Silent).

(** The line [s], written at time [t]. *)
Definition line_at (t : Z) (s : string) : Line := (emit_at t s, t).

(** One line, then silence with the pipe left open. *)
Definition one_line_world : World :=
  ready_world (child ("Reading symbols..." ++ NL) Silent).

(** The same with a line that holds a single space. *)
Definition blank_line_world : World :=
  ready_world (child (" " ++ NL) Silent).

(** A session whose child cannot be signalled. *)
Definition stuck_child : Popen :=
  mkPopen None [] Silent None (Some (Exception "[Errno 1] Operation not permitted")).

Definition stuck_world : World := ready_world stuck_child.

(** A session whose child has closed its end of the stdin pipe. *)
Definition broken_pipe_world : World :=
  ready_world (mkPopen (Some (Exception "[Errno 32] Broken pipe")) [] Silent None None).

(** A session whose stdout fails in the middle of an answer. *)
Definition broken_read_world : World :=
  ready_world (mkPopen None (emit_at 0 ("partial" ++ NL))
                       (Broken 0 (Exception "[Errno 5] Input/output error")) None None).

(** Line [i] of the flood: [line 0], [line 1], ... *)
Definition flood_line (i : nat) : string :=
  ("line " ++ NilEmpty.string_of_uint (Nat.to_uint i))%string.

Definition flood_lines (n : nat) : list string := map flood_line (seq 0 n).

(** A child that has written 500 distinct lines and no prompt. *)
Definition flood_output : string :=
  String.concat EmptyString (map (fun l => (l ++ NL)%string) (flood_lines 500)).

Definition flood_world : World := ready_world (child flood_output Silent).

End Examples.

(* ================================================================== *)
(** * Properties of whole sessions *)
(* ================================================================== *)

Module Session.
Import Host Server.

(** The two globals agree: the flag is set exactly when a process object
    is held. *)
Definition consistent (w : World) : Prop :=
  is_connected w = true <-> gdb_process w <> None.

(** What reading and waiting may change: the clock moves on and pending
    output is consumed from the front; the host, the events, the flag and
    everything else about the process stay. *)
Definition evolves_process (p p' : Popen) : Prop :=
  stdin_fault p' = stdin_fault p /\
  stdout_end p' = stdout_end p /\
  exit_time p' = exit_time p /\
  terminate_fault p' = terminate_fault p /\
  exists k, stdout_pending p' = skipn k (stdout_pending p).

Definition evolves (w w' : World) : Prop :=
  env w' = env w /\
  trace w' = trace w /\
  is_connected w' = is_connected w /\
  now w <= now w' /\
  match gdb_process w, gdb_process w' with
  | None, None => True
  | Some p, Some p' => evolves_process p p'
  | _, _ => False
  end.

(** A computation that only reads and waits. *)
Definition only_reads {A} (m : M A) : Prop :=
  forall w, evolves w (snd (m w)).

(** A computation that changes nothing. *)
Definition leaves_world {A} (m : M A) : Prop :=
  forall w, snd (m w) = w.

(** The pipe of the session is readable now. *)
Definition readable_now (w : World) : Prop :=
  exists p t, gdb_process w = Some p /\ next_readable p = Some t /\ t <= now w.

(** The text has a character that is no whitespace. *)
Fixpoint ink (s : string) : bool :=
  match s with
  | EmptyString => false
  | String c s' => negb (Py.isspace c) || ink s'
  end.

(** The command line of the child, as [start_debug_session] builds it. *)
Definition gdb_argv (binary_path : string) : list string :=
  ["gdb"; "-q"]
    ++ (if Py.truthy binary_path then [binary_path] else [])
    ++ ["-ex"; "set confirm off"; "-ex"; "set pagination off"].

(** The commands that [list_available_commands] prints. *)
Definition listed_commands : list string :=
  concat (map snd commands_by_category).

(** The text with which [execute_custom_command] frames a result. *)
Definition custom_result (command result : string) : string :=
  ("✓ 사용자 정의 명령어 실행됨: " ++ command ++ NL ++ NL ++ result)%string.

(** The three tests of [execute_custom_command], as one test. *)
Definition gate_ok (command : string) : bool :=
  match Py.split command with
  | [] => false
  | base :: _ =>
      Py.mem base ALLOWED_COMMANDS
      && forallb (fun pattern => negb (Py.contains pattern (Py.lower command)))
                 dangerous_patterns
      && (String.length command <=? 200)%nat
  end.

(** The line that [list_available_commands] prints for a command. *)
Definition bullet (cmd : string) : string := ("  • " ++ cmd ++ NL)%string.

(** The texts [start_debug_session] returns. *)
Definition msg_died : string := "Error: GDB 프로세스가 예기치 않게 종료되었습니다.".
Definition msg_start_failed (e : Exn) : string :=
  ("GDB 세션 시작 실패: " ++ str_of_exn e)%string.
Definition msg_started (binary_path : string) : string :=
  if Py.truthy binary_path
  then ("✓ GDB 세션 시작됨 (바이너리: " ++ binary_path ++ ")")%string
  else "✓ GDB 세션 시작됨 (바이너리 없음)".

(** No session is left. *)
Definition reset (w : World) : World :=
  set_is_connected false (set_gdb_process None w).

End Session.

(* ================================================================== *)
(** * More hosts and sessions for examples *)
(* ================================================================== *)

Module Examples3.
Import Server Examples.

(** A host with no file at all. *)
Definition no_files_env : Env :=
  mkEnv (inr 0) (inr "/root") (fun _ => inr false) (fun _ => false)
        (fun _ => inr (child "pwndbg> " Silent)).

Definition no_files_world : World := mkWorld no_files_env 0 [] None false.

(** A child that has exited before its first character: its stdout is at
    end of file. *)
Definition dead_child : Popen := mkPopen None [] (Eof 0) (Some 0) None.

Definition dead_child_world : World :=
  mkWorld (mkEnv (inr 0) (inr "/root") (fun _ => inr true) (fun _ => true)
                 (fun _ => inr dead_child))
          0 [] None false.

(** A session whose child wrote a partial line and closed its output. *)
Definition end_of_file_world : World :=
  ready_world (child "  Program exited " (Eof 0)).

(** A session whose child writes nothing and keeps its output open. *)
Definition silent_world : World := ready_world (child EmptyString Silent).

End Examples3.

(* ================================================================== *)
(** * The operations on small inputs *)
(* ================================================================== *)

Module Sanity.
Import Py Server Examples.

Example split_words : split "  heap   chunks " = ["heap"; "chunks"].
Proof. reflexivity. Qed.

Example split_blank : split (" " ++ chr nl) = [].
Proof. reflexivity. Qed.

Example rstrip_nl_crlf : rstrip_nl ("abc" ++ chr cr ++ chr nl) = "abc".
Proof. reflexivity. Qed.

Example rstrip_nl_keeps_spaces : rstrip_nl (" abc " ++ chr nl) = " abc ".
Proof. reflexivity. Qed.

Example strip_both_sides : strip "  a b  " = "a b".
Proof. reflexivity. Qed.

Example endswith_prompt : endswith "(gdb) pwndbg>" prompt = true.
Proof. reflexivity. Qed.

Example endswith_prompt_space : endswith "pwndbg> " prompt = false.
Proof. reflexivity. Qed.

Example contains_rm : contains "rm" "heap ; rm -rf /" = true.
Proof. reflexivity. Qed.

Example contains_inside_word : contains "su" "info registers rsp result" = true.
Proof. reflexivity. Qed.

Example lower_mixed : lower "HeAp 0X1F" = "heap 0x1f".
Proof. reflexivity. Qed.

Example sorted_three : sorted ["plt"; "got"; "heap"] = ["got"; "heap"; "plt"].
Proof. reflexivity. Qed.

Example join_two : join NL ["a"; "b"] = ("a" ++ NL ++ "b")%string.
Proof. reflexivity. Qed.

(** The other two refusals of the free-form tool. *)
Example notacommand_refused w :
  execute_custom_command "notacommand" w = (Ret msg_not_whitelisted, w).
Proof. reflexivity. Qed.

Example long_command_refused w :
  execute_custom_command
    ("x " ++ string_of_list_ascii (repeat "a"%char 248)) w = (Ret msg_too_long, w).
Proof. vm_compute. reflexivity. Qed.

(** A start, then a stop, then a second stop. *)
Example start_connects :
  fst (start_debug_session EmptyString idle_world)
    = Ret "✓ GDB 세션 시작됨 (바이너리 없음)" /\
  is_connected (snd (start_debug_session EmptyString idle_world)) = true /\
  trace (snd (start_debug_session EmptyString idle_world))
    = [EvSpawn ["gdb"; "-q"; "-ex"; "set confirm off"; "-ex"; "set pagination off"]].
Proof. vm_compute. repeat split. Qed.

Example stop_twice :
  let w1 := snd (stop_debug_session framing_world) in
  fst (stop_debug_session framing_world) = Ret msg_stopped /\
  is_connected w1 = false /\ gdb_process w1 = None /\
  stop_debug_session w1 = (Ret msg_not_active, w1).
Proof. vm_compute. repeat split. Qed.

End Sanity.

(* ================================================================== *)
(** * Lemmas on the string operations *)
(* ================================================================== *)

Module PyFacts.
Import Py.

Lemma append_chr (a : string) (c : ascii) (s : string) :
  ((a ++ chr c) ++ s)%string = (a ++ String c s)%string.
Proof. induction a as [|d a IH]; cbn; [reflexivity | now rewrite IH]. Qed.

Lemma append_empty_r (a : string) : (a ++ EmptyString)%string = a.
Proof. induction a as [|d a IH]; cbn; [reflexivity | now rewrite IH]. Qed.

Lemma append_assoc (a b c : string) :
  ((a ++ b) ++ c)%string = (a ++ (b ++ c))%string.
Proof. induction a as [|d a IH]; cbn; [reflexivity | now rewrite IH]. Qed.

Lemma prefix_append (a b : string) : String.prefix a (a ++ b) = true.
Proof.
  induction a as [|c a IH]; cbn.
  - destruct b; reflexivity.
  - destruct (ascii_dec c c); [assumption | congruence].
Qed.

Lemma contains_tail pat c s :
  contains pat (String c s) = false -> contains pat s = false.
Proof. cbn. intros H. apply orb_false_iff in H. tauto. Qed.

Lemma contains_append_r pat a b :
  contains pat (a ++ b) = false -> contains pat b = false.
Proof.
  induction a as [|c a IH]; cbn [append]; [tauto|].
  intros H. apply IH. eapply contains_tail; eassumption.
Qed.

(** A string that ends with [pat] has [pat] inside, and so has any
    extension of it. *)
Lemma endswith_contains a pat b :
  endswith a pat = true -> contains pat (a ++ b) = true.
Proof.
  induction a as [|c a IH]; cbn [endswith]; intros H.
  - rewrite orb_false_r in H. apply String.eqb_eq in H. subst pat.
    cbn. destruct b; reflexivity.
  - apply orb_true_iff in H. destruct H as [H|H].
    + apply String.eqb_eq in H. subst pat.
      change (contains (String c a) (String c a ++ b) = true).
      destruct (String c a ++ b)%string eqn:E; cbn [contains];
        rewrite <- E, prefix_append; reflexivity.
    + cbn [append contains]. rewrite (IH H). apply orb_true_r.
Qed.

Lemma not_contains_not_endswith a pat b :
  contains pat (a ++ b) = false -> endswith a pat = false.
Proof.
  intros H. destruct (endswith a pat) eqn:E; [|reflexivity].
  rewrite (endswith_contains _ _ b E) in H. discriminate.
Qed.

(** What [rstrip] leaves is the start of the string. *)
Lemma rstrip_by_prefix f s : exists b, s = (rstrip_by f s ++ b)%string.
Proof.
  induction s as [|c s [b IH]]; cbn.
  - exists EmptyString. reflexivity.
  - destruct (rstrip_by f s) as [|d r] eqn:E.
    + destruct (f c).
      * exists (String c s). reflexivity.
      * exists s. reflexivity.
    + exists b. cbn in *. congruence.
Qed.

Lemma rstrip_by_app_chr f s c :
  f c = true -> rstrip_by f (s ++ chr c) = rstrip_by f s.
Proof.
  intros Hc. induction s as [|d s IH]; cbn.
  - rewrite Hc. reflexivity.
  - rewrite IH. reflexivity.
Qed.

(** Stripping a larger class after a smaller one is stripping the larger
    one. *)
Lemma rstrip_by_weaken f g s :
  (forall c, f c = true -> g c = true) ->
  rstrip_by g (rstrip_by f s) = rstrip_by g s.
Proof.
  intros Hfg. induction s as [|c s IH]; cbn; [reflexivity|].
  destruct (rstrip_by f s) as [|d r] eqn:E.
  - rewrite <- IH. cbn. destruct (f c) eqn:Ef.
    + rewrite (Hfg c Ef). reflexivity.
    + cbn. reflexivity.
  - change (rstrip_by g (String c (String d r)))
      with (match rstrip_by g (String d r) with
            | EmptyString => if g c then EmptyString else chr c
            | String d' r' => String c (String d' r')
            end).
    rewrite IH. reflexivity.
Qed.

Lemma nl_cr_isspace c :
  (Ascii.eqb c nl || Ascii.eqb c cr)%bool = true -> isspace c = true.
Proof.
  intros H. apply orb_true_iff in H.
  destruct H as [H|H]; apply Ascii.eqb_eq in H; subst; reflexivity.
Qed.

Lemma strip_rstrip_nl s : strip (rstrip_nl s) = strip s.
Proof.
  unfold strip, rstrip_nl. rewrite rstrip_by_weaken; [reflexivity|].
  exact nl_cr_isspace.
Qed.

Lemma rstrip_nl_newline s : rstrip_nl (s ++ chr nl) = rstrip_nl s.
Proof. unfold rstrip_nl. apply rstrip_by_app_chr. reflexivity. Qed.

Lemma truthy_strip_rstrip_nl s :
  truthy (strip s) = true -> truthy (rstrip_nl s) = true.
Proof.
  intros H. rewrite <- strip_rstrip_nl in H.
  destruct (rstrip_nl s); [discriminate H | reflexivity].
Qed.

(** A character is a line feed exactly when its string is the line
    terminator. *)
Lemma chr_eqb_nl c : String.eqb (chr c) (chr nl) = Ascii.eqb c nl.
Proof. cbn. destruct (Ascii.eqb c nl); reflexivity. Qed.

Lemma contains_nl_head c s :
  contains (chr nl) (String c s) = false -> Ascii.eqb c nl = false.
Proof.
  cbn. intros H. apply orb_false_iff in H. destruct H as [H _].
  destruct (ascii_dec nl c) as [<-|N].
  - destruct s; discriminate H.
  - apply Ascii.eqb_neq. congruence.
Qed.

End PyFacts.

(* ================================================================== *)
(** * Lemmas on the monad and the host *)
(* ================================================================== *)

Module HostFacts.
Import Host Server Framer.

Lemma set_now_same (w : World) : set_now (now w) w = w.
Proof. destruct w; reflexivity. Qed.

Lemma bind_ret_l {A B} (m : M A) (k : A -> M B) (w w' : World) (a : A) :
  m w = (Ret a, w') -> bind m k w = k a w'.
Proof. intros H. unfold bind. rewrite H. reflexivity. Qed.

Lemma bind_raise_l {A B} (m : M A) (k : A -> M B) (w w' : World) (e : Exn) :
  m w = (Raise e, w') -> bind m k w = (Raise e, w').
Proof. intros H. unfold bind. rewrite H. reflexivity. Qed.

Lemma the_process_some (attr : string) (w : World) (p : Popen) :
  gdb_process w = Some p -> the_process attr w = (Ret p, w).
Proof. intros H. unfold the_process. rewrite H. reflexivity. Qed.

(** [select] on a pipe whose next character is already there: ready at
    once. *)
Lemma select_available (d : Z) (w : World) (p : Popen) t c rest :
  gdb_process w = Some p ->
  stdout_pending p = (t, c) :: rest ->
  t <= now w -> 0 <= d ->
  select_stdout d w = (Ret true, w).
Proof.
  intros Hp Hout Ht Hd. unfold select_stdout.
  rewrite (bind_ret_l _ _ _ _ _ (the_process_some _ _ _ Hp)).
  unfold bind, gets, modify, ret, next_readable. rewrite Hout.
  destruct (Z.leb_spec t (now w + d)); [|lia].
  rewrite Z.max_l by lia. rewrite set_now_same. reflexivity.
Qed.

(** [read(1)] of a character that is already there. *)
Lemma read1_available (w : World) (p : Popen) t c rest :
  gdb_process w = Some p ->
  stdout_pending p = (t, c) :: rest ->
  t <= now w ->
  stdout_read1 w = (Ret (Py.chr c), with_pending p rest w).
Proof.
  intros Hp Hout Ht. unfold stdout_read1.
  rewrite (bind_ret_l _ _ _ _ _ (the_process_some _ _ _ Hp)).
  unfold bind, gets, modify, ret. rewrite Hout.
  rewrite Z.max_l by lia. rewrite set_now_same. reflexivity.
Qed.

(** [select] on a silent pipe with nothing pending: the whole wait
    passes. *)
Lemma select_silent (d : Z) (w : World) (p : Popen) :
  gdb_process w = Some p ->
  stdout_pending p = [] ->
  stdout_end p = Silent ->
  select_stdout d w = (Ret false, set_now (now w + d) w).
Proof.
  intros Hp Hout Hend. unfold select_stdout.
  rewrite (bind_ret_l _ _ _ _ _ (the_process_some _ _ _ Hp)).
  unfold bind, gets, modify, ret, next_readable. rewrite Hout, Hend.
  reflexivity.
Qed.

End HostFacts.

Module FramerFacts.
Import Host Server Framer HostFacts.

(** One iteration of the loop on a character that is already there. *)
Lemma read_loop_ready_step fuel start_time output_lines buffer w p t c rest :
  gdb_process w = Some p ->
  stdout_pending p = (t, c) :: rest ->
  t <= now w ->
  now w - start_time < timeout ->
  read_loop (S fuel) start_time output_lines buffer w =
    match on_char output_lines buffer c with
    | Continue output_lines' buffer' =>
        read_loop fuel start_time output_lines' buffer' (with_pending p rest w)
    | Stop e output_lines' buffer' =>
        (Ret (e, output_lines', buffer'), with_pending p rest w)
    end.
Proof.
  intros Hp Hout Ht Hdl.
  cbn [read_loop]. unfold time_time.
  unfold bind at 1. unfold gets at 1.
  destruct (Z.ltb_spec (now w - start_time) timeout); [|lia].
  rewrite (bind_ret_l _ _ _ _ _ (select_available 100 _ _ _ _ _ Hp Hout Ht ltac:(lia))).
  rewrite (bind_ret_l _ _ _ _ _ (read1_available _ _ _ _ _ Hp Hout Ht)).
  unfold on_char. cbn [Py.truthy Py.chr].
  destruct (String.eqb (Py.chr c) NL).
  - destruct (Py.endswith (Py.rstrip_nl _) prompt); [reflexivity|].
    destruct (Nat.ltb 200 _); reflexivity.
  - destruct (Py.endswith _ prompt); [reflexivity|].
    destruct (Nat.ltb 200 _); reflexivity.
Qed.

Lemma set_stdout_same (p : Popen) : set_stdout (stdout_pending p) p = p.
Proof. destruct p; reflexivity. Qed.

Lemma with_pending_same (w : World) (p : Popen) :
  gdb_process w = Some p -> with_pending p (stdout_pending p) w = w.
Proof.
  intros H. unfold with_pending. rewrite set_stdout_same.
  destruct w; cbn in *. subst. reflexivity.
Qed.

Lemma with_pending_twice (w : World) (p : Popen) l l' :
  with_pending (set_stdout l p) l' (with_pending p l w) = with_pending p l' w.
Proof. reflexivity. Qed.

(** The loop on a run of characters that are already there: it handles
    them one by one, without letting time pass. *)
Lemma read_loop_feed cs : forall fuel start_time output_lines buffer w p rest,
  gdb_process w = Some p ->
  stdout_pending p = cs ++ rest ->
  available (now w) cs ->
  now w - start_time < timeout ->
  read_loop (length cs + fuel) start_time output_lines buffer w =
    match feed cs output_lines buffer with
    | (Continue output_lines' buffer', _) =>
        read_loop fuel start_time output_lines' buffer' (with_pending p rest w)
    | (Stop e output_lines' buffer', unread) =>
        (Ret (e, output_lines', buffer'), with_pending p (unread ++ rest) w)
    end.
Proof.
  induction cs as [|[t c] cs IH]; intros fuel start_time ol buf w p rest Hp Hout Hav Hdl.
  - cbn in *. rewrite <- Hout. rewrite with_pending_same by assumption. reflexivity.
  - inversion Hav as [|? ? Ht Hav']; subst. cbn in Ht.
    cbn [length Nat.add feed]. rewrite <- app_comm_cons in Hout.
    rewrite (read_loop_ready_step _ _ _ _ _ _ _ _ (cs ++ rest) Hp Hout Ht Hdl).
    destruct (on_char ol buf c) as [ol' buf'|e ol' buf']; [|reflexivity].
    rewrite (IH fuel start_time ol' buf' (with_pending p (cs ++ rest) w)
                (set_stdout (cs ++ rest) p) rest); try reflexivity; assumption.
Qed.

(** Silence after output, with an empty buffer: the loop waits 100 ms,
    sleeps 50 ms, polls 10 ms more and leaves. *)
Lemma read_loop_idle_exit fuel start_time output_lines w p :
  gdb_process w = Some p ->
  stdout_pending p = [] ->
  stdout_end p = Silent ->
  output_lines <> [] ->
  now w - start_time < timeout ->
  read_loop (S fuel) start_time output_lines EmptyString w =
    (Ret (ExitIdle, output_lines, EmptyString), set_now (now w + 160) w).
Proof.
  intros Hp Hout Hend Hol Hdl.
  cbn [read_loop]. unfold time_time.
  unfold bind at 1. unfold gets at 1.
  destruct (Z.ltb_spec (now w - start_time) timeout); [|lia].
  rewrite (bind_ret_l _ _ _ _ _ (select_silent 100 _ _ Hp Hout Hend)).
  destruct output_lines as [|l ls]; [congruence|].
  cbn [length Nat.eqb negb andb String.eqb].
  unfold time_sleep.
  unfold bind at 1. unfold modify at 1.
  erewrite bind_ret_l by (apply select_silent with (p := p); assumption).
  unfold ret. f_equal. destruct w; unfold set_now; cbn. f_equal. lia.
Qed.

End FramerFacts.

Module FeedFacts.
Import Host Server Framer HostFacts PyFacts FramerFacts.

Lemma text_of_cons t c cs : text_of ((t, c) :: cs) = String c (text_of cs).
Proof. reflexivity. Qed.

(** A character that is no line feed and completes no prompt only grows
    the buffer. *)
Lemma on_char_plain output_lines buffer c :
  (length output_lines <= 200)%nat ->
  Ascii.eqb c Py.nl = false ->
  Py.endswith (buffer ++ Py.chr c) prompt = false ->
  on_char output_lines buffer c = Continue output_lines (buffer ++ Py.chr c).
Proof.
  intros Hlen Hc Hend. unfold on_char, NL.
  rewrite chr_eqb_nl, Hc, Hend.
  destruct (Nat.ltb_spec 200 (length output_lines)); [lia | reflexivity].
Qed.

(** The line feed after a line that is not empty and holds no prompt
    completes that line. *)
Lemma on_char_newline output_lines buffer :
  Py.truthy (Py.rstrip_nl buffer) = true ->
  Py.contains prompt buffer = false ->
  on_char output_lines buffer Py.nl =
    if (200 <? length (output_lines ++ [Py.rstrip_nl buffer]))%nat
    then Stop ExitLimit ((output_lines ++ [Py.rstrip_nl buffer]) ++ [limit_marker])
              EmptyString
    else Continue (output_lines ++ [Py.rstrip_nl buffer]) EmptyString.
Proof.
  intros Hne Hpr. unfold on_char, NL.
  rewrite chr_eqb_nl. change (Ascii.eqb Py.nl Py.nl) with true. cbv iota.
  rewrite rstrip_nl_newline.
  rewrite Hne.
  destruct (rstrip_by_prefix (fun c => Ascii.eqb c Py.nl || Ascii.eqb c Py.cr)%bool buffer)
    as [b Hb].
  fold (Py.rstrip_nl buffer) in Hb.
  rewrite Hb in Hpr.
  rewrite (not_contains_not_endswith _ _ _ Hpr).
  reflexivity.
Qed.

(** A run of characters with no line feed and no prompt goes to the
    buffer. *)
Lemma feed_plain cs : forall output_lines buffer tail,
  (length output_lines <= 200)%nat ->
  Py.contains NL (text_of cs) = false ->
  Py.contains prompt (buffer ++ text_of cs) = false ->
  feed (cs ++ tail) output_lines buffer =
  feed tail output_lines (buffer ++ text_of cs).
Proof.
  induction cs as [|[t c] cs IH]; intros ol buf tail Hlen Hnl Hpr.
  - cbn. rewrite append_empty_r. reflexivity.
  - rewrite text_of_cons in *. cbn [app feed].
    rewrite on_char_plain; try assumption.
    + rewrite IH; try assumption.
      * rewrite append_chr. reflexivity.
      * eapply contains_tail; eassumption.
      * rewrite append_chr. assumption.
    + eapply contains_nl_head; eassumption.
    + apply not_contains_not_endswith with (b := text_of cs).
      rewrite append_chr. assumption.
Qed.

(** One whole line, with its terminator. *)
Lemma feed_line cs t tail output_lines :
  (length output_lines <= 200)%nat ->
  Py.contains NL (text_of cs) = false ->
  Py.contains prompt (text_of cs) = false ->
  Py.truthy (Py.rstrip_nl (text_of cs)) = true ->
  feed (cs ++ (t, Py.nl) :: tail) output_lines EmptyString =
    if (200 <? length (output_lines ++ [Py.rstrip_nl (text_of cs)]))%nat
    then (Stop ExitLimit
               ((output_lines ++ [Py.rstrip_nl (text_of cs)]) ++ [limit_marker])
               EmptyString, tail)
    else feed tail (output_lines ++ [Py.rstrip_nl (text_of cs)]) EmptyString.
Proof.
  intros Hlen Hnl Hpr Hne.
  rewrite feed_plain; try assumption.
  cbn [feed append]. rewrite on_char_newline by assumption.
  destruct (Nat.ltb 200 _); reflexivity.
Qed.

End FeedFacts.

(* ================================================================== *)
(** * Both loops return or raise *)
(* ================================================================== *)

Module Totality.
Import Host Server Framer.
Import HostFacts PyFacts.

Lemma set_now_set_now a b w : set_now a (set_now b w) = set_now a w.
Proof. reflexivity. Qed.

Lemma can_read_set_now t w : can_read w -> can_read (set_now t w).
Proof. intros [p [Hp Hr]]. exists p. split; assumption. Qed.

(** The three ways [select] ends: no process object, readable (at once
    or after a wait), or the whole wait passes. *)
Lemma select_cases d w :
  0 <= d ->
  (exists e, select_stdout d w = (Raise e, w)) \/
  (exists t', now w <= t' /\ can_read w /\
              select_stdout d w = (Ret true, set_now t' w)) \/
  select_stdout d w = (Ret false, set_now (now w + d) w).
Proof.
  intros Hd. unfold select_stdout, the_process, bind, gets, modify, ret.
  destruct (gdb_process w) as [p|] eqn:Hp; [|left; eauto].
  right.
  destruct (next_readable p) as [t|] eqn:Hr; [|right; reflexivity].
  destruct (Z.leb_spec t (now w + d)); [|right; reflexivity].
  left. exists (Z.max (now w) t). split; [lia|]. split; [|reflexivity].
  exists p. split; [assumption | congruence].
Qed.

(** The three ways [read(1)] ends on a pipe that will be readable: a
    character, the end of file, or a fault. *)
Lemma read1_cases w :
  can_read w ->
  (exists p t c rest t',
      gdb_process w = Some p /\ stdout_pending p = (t, c) :: rest /\
      now w <= t' /\
      stdout_read1 w = (Ret (Py.chr c), with_pending p rest (set_now t' w))) \/
  (exists t', now w <= t' /\ stdout_read1 w = (Ret EmptyString, set_now t' w)) \/
  (exists e w', stdout_read1 w = (Raise e, w')).
Proof.
  intros [p [Hp Hr]]. unfold stdout_read1.
  rewrite (bind_ret_l _ _ _ _ _ (the_process_some _ _ _ Hp)).
  unfold bind, gets, modify, ret, raise. unfold next_readable in Hr.
  destruct (stdout_pending p) as [|[t c] rest] eqn:Hout.
  - destruct (stdout_end p) as [|t|t e]; [congruence| |].
    + right. left. exists (Z.max (now w) t). split; [lia | reflexivity].
    + right. right. eauto.
  - left. exists p, t, c, rest, (Z.max (now w) t).
    repeat split; try assumption. lia.
Qed.

Lemma enough_fuel_zero start_time w : ~ enough_fuel 0 start_time w.
Proof. unfold enough_fuel. lia. Qed.

(** After 150 ms or more, one iteration less is enough. *)
Lemma enough_fuel_wait fuel start_time w t' :
  enough_fuel (S fuel) start_time w ->
  now w - start_time < timeout ->
  now w + 150 <= t' ->
  enough_fuel fuel start_time (set_now t' w).
Proof.
  unfold enough_fuel, pending_len. cbn [gdb_process set_now now].
  unfold timeout. intros [H1 H2] H3 H4. split; lia.
Qed.

(** After a character is read, one iteration less is enough. *)
Lemma enough_fuel_read fuel start_time w p x rest t' :
  enough_fuel (S fuel) start_time w ->
  gdb_process w = Some p ->
  stdout_pending p = x :: rest ->
  now w <= t' ->
  enough_fuel fuel start_time (with_pending p rest (set_now t' w)).
Proof.
  unfold enough_fuel, pending_len. intros H Hp Hout Ht. rewrite Hp, Hout in H.
  cbn [gdb_process set_now now with_pending set_gdb_process stdout_pending set_stdout length] in *.
  destruct H as [H1 H2]. split; lia.
Qed.

(** With enough iterations left the loop of [_execute_safe_command]
    returns or raises. *)
Lemma read_loop_settles fuel : forall start_time output_lines buffer w,
  enough_fuel fuel start_time w ->
  settles (read_loop fuel start_time output_lines buffer w).
Proof.
  induction fuel as [|fuel IH]; intros start ol buf w Hfuel.
  - destruct (enough_fuel_zero _ _ Hfuel).
  - cbn [read_loop]. unfold time_time. unfold bind at 1. unfold gets at 1.
    destruct (Z.ltb_spec (now w - start) timeout) as [Hdl|]; [|exact I].
    destruct (select_cases 100 w ltac:(lia)) as [[e Hs]|[[t' [Ht [Hcr Hs]]]|Hs]].
    + rewrite (bind_raise_l _ _ _ _ _ Hs). exact I.
    + rewrite (bind_ret_l _ _ _ _ _ Hs).
      destruct (read1_cases (set_now t' w) (can_read_set_now _ _ Hcr))
        as [[p [t [c [rest [t2 [Hp [Hout [Ht2 Hr]]]]]]]]|[[t2 [Ht2 Hr]]|[e [w' Hr]]]].
      * rewrite (bind_ret_l _ _ _ _ _ Hr). cbn [Py.truthy Py.chr].
        assert (Hnext : enough_fuel fuel start
                          (with_pending p rest (set_now t2 (set_now t' w)))).
        { rewrite set_now_set_now.
          apply enough_fuel_read with (x := (t, c)); try assumption.
          cbn in Ht2. lia. }
        destruct (String.eqb _ NL).
        -- destruct (Py.endswith _ prompt); [exact I|].
           destruct (Nat.ltb 200 _); [exact I|]. apply IH. exact Hnext.
        -- destruct (Py.endswith _ prompt); [exact I|].
           destruct (Nat.ltb 200 _); [exact I|]. apply IH. exact Hnext.
      * rewrite (bind_ret_l _ _ _ _ _ Hr). exact I.
      * rewrite (bind_raise_l _ _ _ _ _ Hr). exact I.
    + rewrite (bind_ret_l _ _ _ _ _ Hs).
      destruct (negb (Nat.eqb (length ol) 0) && String.eqb buf EmptyString)%bool.
      * unfold time_sleep. unfold bind at 1. unfold modify at 1.
        cbn [now set_now]. rewrite set_now_set_now.
        destruct (select_cases 10 (set_now (now w + 100 + 50) w) ltac:(lia))
          as [[e Hs2]|[[t' [Ht [Hcr Hs2]]]|Hs2]].
        -- rewrite (bind_raise_l _ _ _ _ _ Hs2). exact I.
        -- rewrite (bind_ret_l _ _ _ _ _ Hs2). rewrite set_now_set_now.
           apply IH. apply enough_fuel_wait; try assumption. cbn in Ht. lia.
        -- rewrite (bind_ret_l _ _ _ _ _ Hs2). exact I.
      * unfold time_sleep. unfold bind at 1. unfold modify at 1.
        cbn [now set_now]. rewrite set_now_set_now.
        apply IH. apply enough_fuel_wait; try assumption. lia.
Qed.

(** The same for the loop of [start_debug_session]. *)
Lemma startup_loop_settles fuel : forall start_time buffer w,
  enough_fuel fuel start_time w ->
  settles (startup_loop fuel start_time buffer w).
Proof.
  induction fuel as [|fuel IH]; intros start buf w Hfuel.
  - destruct (enough_fuel_zero _ _ Hfuel).
  - cbn [startup_loop]. unfold time_time. unfold bind at 1. unfold gets at 1.
    destruct (Z.ltb_spec (now w - start) timeout) as [Hdl|]; [|exact I].
    destruct (select_cases 100 w ltac:(lia)) as [[e Hs]|[[t' [Ht [Hcr Hs]]]|Hs]].
    + rewrite (bind_raise_l _ _ _ _ _ Hs). exact I.
    + rewrite (bind_ret_l _ _ _ _ _ Hs).
      destruct (read1_cases (set_now t' w) (can_read_set_now _ _ Hcr))
        as [[p [t [c [rest [t2 [Hp [Hout [Ht2 Hr]]]]]]]]|[[t2 [Ht2 Hr]]|[e [w' Hr]]]].
      * rewrite (bind_ret_l _ _ _ _ _ Hr). cbn [Py.truthy Py.chr].
        destruct (Py.endswith _ prompt); [exact I|].
        apply IH. rewrite set_now_set_now.
        apply enough_fuel_read with (x := (t, c)); try assumption.
        cbn in Ht2. lia.
      * rewrite (bind_ret_l _ _ _ _ _ Hr). exact I.
      * rewrite (bind_raise_l _ _ _ _ _ Hr). exact I.
    + rewrite (bind_ret_l _ _ _ _ _ Hs).
      unfold time_sleep. unfold bind at 1. unfold modify at 1.
      cbn [now set_now]. rewrite set_now_set_now.
      apply IH. apply enough_fuel_wait; try assumption. lia.
Qed.

(** [loop_bound] is enough at the start of a loop. *)
Lemma loop_bound_enough w : enough_fuel (loop_bound w) (now w) w.
Proof.
  unfold enough_fuel, pending_len, loop_bound, timeout.
  destruct (gdb_process w) as [p|]; split; lia.
Qed.

End Totality.

Module FuelFacts.
Import Host Server Framer.
Import HostFacts PyFacts Totality.

Lemma bind_gets {A B} (f : World -> A) (k : A -> M B) w :
  bind (gets f) k w = k (f w) w.
Proof. reflexivity. Qed.

Lemma bind_modify {B} (f : World -> World) (k : unit -> M B) w :
  bind (modify f) k w = k tt (f w).
Proof. reflexivity. Qed.

(** Past [enough_fuel], more iterations change nothing: the bound chosen
    in [loop_bound] does not show in any result. *)
Lemma read_loop_more_fuel fuel : forall start_time output_lines buffer w,
  enough_fuel fuel start_time w ->
  read_loop (S fuel) start_time output_lines buffer w
  = read_loop fuel start_time output_lines buffer w.
Proof.
  induction fuel as [|fuel IH]; intros start ol buf w Hfuel.
  - destruct (enough_fuel_zero _ _ Hfuel).
  - enough (Hn : forall n, n = S fuel ->
                   read_loop (S n) start ol buf w = read_loop (S fuel) start ol buf w)
      by (apply Hn; reflexivity).
    intros n En. cbn [read_loop]. unfold time_time, time_sleep.
    rewrite !bind_gets.
    destruct (Z.ltb_spec (now w - start) timeout) as [Hdl|]; [|reflexivity].
    destruct (select_cases 100 w ltac:(lia)) as [[e Hs]|[[t' [Ht [Hcr Hs]]]|Hs]].
    + rewrite !(bind_raise_l _ _ _ _ _ Hs). reflexivity.
    + rewrite !(bind_ret_l _ _ _ _ _ Hs).
      destruct (read1_cases (set_now t' w) (can_read_set_now _ _ Hcr))
        as [[p [t [c [rest [t2 [Hp [Hout [Ht2 Hr]]]]]]]]|[[t2 [Ht2 Hr]]|[e [w' Hr]]]].
      * rewrite !(bind_ret_l _ _ _ _ _ Hr). cbn [Py.truthy Py.chr].
        assert (Hnext : enough_fuel fuel start
                          (with_pending p rest (set_now t2 (set_now t' w)))).
        { rewrite set_now_set_now.
          apply enough_fuel_read with (x := (t, c)); try assumption.
          cbn in Ht2. lia. }
        subst n.
        destruct (String.eqb _ NL).
        -- destruct (Py.endswith _ prompt); [reflexivity|].
           destruct (Nat.ltb 200 _); [reflexivity|]. apply IH. exact Hnext.
        -- destruct (Py.endswith _ prompt); [reflexivity|].
           destruct (Nat.ltb 200 _); [reflexivity|]. apply IH. exact Hnext.
      * rewrite !(bind_ret_l _ _ _ _ _ Hr). reflexivity.
      * rewrite !(bind_raise_l _ _ _ _ _ Hr). reflexivity.
    + rewrite !(bind_ret_l _ _ _ _ _ Hs). subst n.
      destruct (negb (Nat.eqb (length ol) 0) && String.eqb buf EmptyString)%bool.
      * rewrite !bind_modify. cbn [now set_now]. rewrite !set_now_set_now.
        destruct (select_cases 10 (set_now (now w + 100 + 50) w) ltac:(lia))
          as [[e Hs2]|[[t' [Ht [Hcr Hs2]]]|Hs2]].
        -- rewrite !(bind_raise_l _ _ _ _ _ Hs2). reflexivity.
        -- rewrite !(bind_ret_l _ _ _ _ _ Hs2). rewrite !set_now_set_now.
           apply IH. apply enough_fuel_wait; try assumption. cbn in Ht. lia.
        -- rewrite !(bind_ret_l _ _ _ _ _ Hs2). reflexivity.
      * rewrite !bind_modify. cbn [now set_now]. rewrite !set_now_set_now.
        apply IH. apply enough_fuel_wait; try assumption. lia.
Qed.

End FuelFacts.

Module TraceFacts.
Import Host Server Framer.

Lemma keeps_trace_bind {A B} (m : M A) (k : A -> M B) :
  keeps_trace m -> (forall a, keeps_trace (k a)) -> keeps_trace (bind m k).
Proof.
  intros Hm Hk w. unfold bind. specialize (Hm w).
  destruct (m w) as [[a|e|] w']; cbn [snd] in *; try assumption.
  rewrite Hk. assumption.
Qed.

Lemma keeps_trace_ret {A} (a : A) : keeps_trace (ret a).
Proof. intros w. reflexivity. Qed.

Lemma keeps_trace_the_process attr : keeps_trace (the_process attr).
Proof. intros w. unfold the_process. destruct (gdb_process w); reflexivity. Qed.

Lemma keeps_trace_select d : keeps_trace (select_stdout d).
Proof.
  unfold select_stdout.
  apply keeps_trace_bind; [apply keeps_trace_the_process|]. intros p.
  apply keeps_trace_bind; [intros w; reflexivity|]. intros t0.
  destruct (next_readable p) as [t|]; [destruct (t <=? t0 + d)|]; intros w; reflexivity.
Qed.

Lemma keeps_trace_read1 : keeps_trace stdout_read1.
Proof.
  unfold stdout_read1.
  apply keeps_trace_bind; [apply keeps_trace_the_process|]. intros p.
  apply keeps_trace_bind; [intros w; reflexivity|]. intros t0.
  destruct (stdout_pending p) as [|[t c] rest];
    [destruct (stdout_end p)|]; intros w; reflexivity.
Qed.

Lemma keeps_trace_sleep d : keeps_trace (time_sleep d).
Proof. intros w. reflexivity. Qed.

(** The loop only reads: it records no event. *)
Lemma keeps_trace_read_loop fuel : forall start_time output_lines buffer,
  keeps_trace (read_loop fuel start_time output_lines buffer).
Proof.
  induction fuel as [|fuel IH]; intros start ol buf; [intros w; reflexivity|].
  cbn [read_loop].
  apply keeps_trace_bind; [intros w; reflexivity|]. intros t.
  destruct (t - start <? timeout); [|apply keeps_trace_ret].
  apply keeps_trace_bind; [apply keeps_trace_select|]. intros [|].
  - apply keeps_trace_bind; [apply keeps_trace_read1|]. intros char.
    destruct (Py.truthy char); [|apply keeps_trace_ret].
    destruct (String.eqb char NL).
    + destruct (Py.endswith _ prompt); [apply keeps_trace_ret|].
      destruct (Nat.ltb 200 _); [apply keeps_trace_ret | apply IH].
    + destruct (Py.endswith _ prompt); [apply keeps_trace_ret|].
      destruct (Nat.ltb 200 _); [apply keeps_trace_ret | apply IH].
  - destruct (negb _ && _)%bool.
    + apply keeps_trace_bind; [apply keeps_trace_sleep|]. intros _.
      apply keeps_trace_bind; [apply keeps_trace_select|]. intros [|];
        [apply IH | apply keeps_trace_ret].
    + apply keeps_trace_bind; [apply keeps_trace_sleep|]. intros _. apply IH.
Qed.

End TraceFacts.

Module ExecuteFacts.
Import Host Server Framer.
Import HostFacts TraceFacts.

(** [_execute_safe_command] on a connected session whose loop returns. *)
Lemma execute_of_frame command w x output_lines buffer w' :
  is_connected w = true ->
  send_and_frame command w = (Ret (x, output_lines, buffer), w') ->
  _execute_safe_command command w =
    (Ret (finish_output command output_lines buffer), w').
Proof.
  intros Hc Hf. unfold _execute_safe_command.
  unfold bind at 1. unfold gets at 1. rewrite Hc. cbn [negb].
  unfold try_except, bind. rewrite Hf. reflexivity.
Qed.

Section ReadySession.

(** A connected session with a healthy stdin, and a command for it. *)
Variables (command : string) (w : World) (p : Popen).
Hypothesis Hconnected : is_connected w = true.
Hypothesis Hprocess : gdb_process w = Some p.
Hypothesis Hstdin : stdin_fault p = None.

(** The start of [send_and_frame]: the command line is written and
    flushed, then the loop runs. *)
Lemma send_and_frame_healthy :
  send_and_frame command w =
    read_loop (length (stdout_pending p) + 40) (now w) [] EmptyString
              (log EvFlush (log (EvWrite (command ++ NL)) w)).
Proof.
  unfold send_and_frame, stdin_write, stdin_flush.
  unfold bind at 1.
  rewrite (bind_ret_l _ _ _ _ _ (the_process_some _ _ _ Hprocess)). rewrite Hstdin.
  unfold modify at 1.
  unfold bind at 1.
  rewrite (bind_ret_l _ _ (log (EvWrite (command ++ NL)) w) _ p)
    by (apply the_process_some; exact Hprocess).
  rewrite Hstdin. unfold modify at 1.
  unfold time_time, bind, gets, loop_bound. cbn [gdb_process log].
  rewrite Hprocess. reflexivity.
Qed.

(** [_execute_safe_command] records exactly the write of the command line
    and the flush. *)
Lemma execute_writes_command :
  trace (snd (_execute_safe_command command w))
  = trace w ++ [EvWrite (command ++ NL); EvFlush].
Proof.
  unfold _execute_safe_command.
  unfold bind at 1. unfold gets at 1. rewrite Hconnected. cbn [negb].
  assert (Hs : trace (snd (send_and_frame command w))
               = trace w ++ [EvWrite (command ++ NL); EvFlush]).
  { rewrite send_and_frame_healthy.
    rewrite keeps_trace_read_loop. cbn [trace log].
    rewrite <- app_assoc. reflexivity. }
  unfold try_except, bind.
  destruct (send_and_frame command w) as [[[[x ol] buf]|e|] w']; exact Hs.
Qed.

End ReadySession.

End ExecuteFacts.

(* ================================================================== *)
(** * The claims *)
(* ================================================================== *)

Module SessionAndGate.
Import Host Server Framer Examples.
Import HostFacts PyFacts.

(** C9: on a session that is not connected, the command is not sent: the
    call returns the not-connected message and leaves the whole world as
    it was, so nothing is written to the child and nothing is read. *)
Theorem C9_not_connected_touches_nothing command w :
  is_connected w = false ->
  _execute_safe_command command w = (Ret msg_not_connected, w).
Proof.
  intros Hc. unfold _execute_safe_command, bind, gets. rewrite Hc. reflexivity.
Qed.

Lemma C9_not_connected_touches_nothing_witness :
  _execute_safe_command "heap" idle_world = (Ret msg_not_connected, idle_world).
Proof.
  apply (C9_not_connected_touches_nothing "heap" idle_world). reflexivity.
Defined.

(** C10: [malloc_chunk], [search] and [find] with an empty argument
    return their error text at once and leave the world as it was,
    whatever the session state. *)
Theorem C10_empty_argument_rejected w :
  malloc_chunk EmptyString w = (Ret msg_no_address, w) /\
  search EmptyString w = (Ret msg_no_pattern, w) /\
  find EmptyString w = (Ret msg_no_pattern, w).
Proof. repeat split. Qed.

(** C8: [start_debug_session] on a connected session returns the
    already-active message and leaves the world as it was: no [Popen]
    call, same process object, same flag. *)
Theorem C8_double_start_refused binary_path w :
  is_connected w = true ->
  start_debug_session binary_path w = (Ret msg_already_active, w).
Proof.
  intros Hc. unfold start_debug_session, bind, gets. rewrite Hc. reflexivity.
Qed.

Lemma C8_double_start_refused_witness :
  start_debug_session "/bin/ls" framing_world = (Ret msg_already_active, framing_world).
Proof.
  apply (C8_double_start_refused "/bin/ls" framing_world). reflexivity.
Defined.

(** C4 (as amended): what [stop_debug_session] does, case by case.  Not
    connected: the not-active message, nothing changes.  Connected with a
    process whose [terminate()] succeeds, or with no process object: the
    termination is requested, the handle is dropped and the flag
    cleared.  Connected with a process whose [terminate()] raises: the
    failure becomes the returned text and the handle and the flag stay as
    they were. *)
Theorem C4_stop_cases w :
  stop_debug_session w =
    if is_connected w then
      match gdb_process w with
      | Some p =>
          match terminate_fault p with
          | None =>
              (Ret msg_stopped,
               set_is_connected false (set_gdb_process None (log EvTerminate w)))
          | Some e =>
              (Ret ("GDB 세션 종료 실패: " ++ str_of_exn e)%string, w)
          end
      | None =>
          (Ret msg_stopped, set_is_connected false (set_gdb_process None w))
      end
    else (Ret msg_not_active, w).
Proof.
  unfold stop_debug_session, bind at 1, gets at 1.
  destruct (is_connected w); [|reflexivity]. cbn [negb].
  unfold try_except, bind at 1, gets at 1.
  destruct (gdb_process w) as [p|] eqn:Hp; [|reflexivity].
  unfold terminate.
  unfold bind at 1. unfold bind at 1. rewrite (the_process_some _ _ _ Hp).
  destruct (terminate_fault p); reflexivity.
Qed.

(** C4 as stated fails when [terminate()] raises: the session stays
    connected and keeps its process object. *)
Lemma C4_counterexample_terminate_raises :
  is_connected stuck_world = true /\
  ~ (is_connected (snd (stop_debug_session stuck_world)) = false /\
     gdb_process (snd (stop_debug_session stuck_world)) = None).
Proof.
  split; [reflexivity|]. intros [H _]. vm_compute in H. discriminate H.
Qed.

(** C3 (as amended): [heap; rm -rf /] is refused as not whitelisted,
    without touching the session: its first whitespace-separated word is
    [heap;], which is not in the whitelist although [heap] is, and the
    whitelist is tested before the forbidden substrings.  With a space
    before the semicolon the first word is [heap], and the command is
    refused for the first forbidden substring of the list that occurs in
    it, [rm]. *)
Theorem C3_heap_semicolon_not_whitelisted w :
  Py.split "heap; rm -rf /" = ["heap;"; "rm"; "-rf"; "/"] /\
  Py.mem "heap;" ALLOWED_COMMANDS = false /\
  Py.mem "heap" ALLOWED_COMMANDS = true /\
  execute_custom_command "heap; rm -rf /" w = (Ret msg_not_whitelisted, w) /\
  execute_custom_command "heap ; rm -rf /" w = (Ret (msg_dangerous "rm"), w).
Proof. repeat split. Qed.

(** C3 as stated fails: the text returned for [heap; rm -rf /] is not
    the dangerous-pattern rejection, for any pattern. *)
Lemma C3_counterexample_not_dangerous_pattern :
  ~ exists pattern,
      fst (execute_custom_command "heap; rm -rf /" idle_world)
      = Ret (msg_dangerous pattern).
Proof.
  intros [pattern H]. vm_compute in H. discriminate H.
Qed.

End SessionAndGate.

Module Idle.
Import Host Server Framer Examples.
Import HostFacts PyFacts FramerFacts FeedFacts ExecuteFacts.




End Idle.

Module PromptFraming.
Import Host Server Framer Examples.
Import HostFacts PyFacts FramerFacts FeedFacts ExecuteFacts.

Lemma text_of_inv cs s :
  text_of cs = s -> map snd cs = list_ascii_of_string s.
Proof.
  unfold text_of. intros <-. rewrite list_ascii_of_string_of_list_ascii. reflexivity.
Qed.

(** A pending output whose text is known, character by character. *)
Ltac explode_pending H :=
  repeat match type of H with
         | map snd ?l = _ :: _ =>
             destruct l as [|[? ?] l]; [discriminate H|];
             cbn [map snd] in H; injection H as -> H
         | map snd ?l = [] =>
             destruct l; [clear H | discriminate H]
         end.



(** The framing example, evaluated: the prompt fragment comes twice, once
    from the loop and once from the handling of what is left in the
    buffer. *)
Example framing_world_returns :
  fst (_execute_safe_command "foo" framing_world)
  = Ret (Py.join NL ["foo"; "result-line"; "pwndbg>"; "pwndbg>"]).
Proof. vm_compute. reflexivity. Qed.


End PromptFraming.

Module Truncation.
Import Host Server Framer Examples.
Import HostFacts PyFacts FramerFacts FeedFacts ExecuteFacts.

Lemma firstn_plus {A} (n m : nat) : forall l : list A,
  firstn (n + m) l = firstn n l ++ firstn m (skipn n l).
Proof.
  induction n as [|n IH]; intros l; [reflexivity|].
  destruct l as [|x l]; cbn [firstn skipn Nat.add app].
  - destruct m; reflexivity.
  - rewrite IH. reflexivity.
Qed.

Lemma lines_stream_app a b :
  lines_stream (a ++ b) = lines_stream a ++ lines_stream b.
Proof.
  induction a as [|[cs t] a IH]; cbn [lines_stream app]; [reflexivity|].
  rewrite IH, <- app_assoc. reflexivity.
Qed.

(** Whole lines are collected as long as there are at most 200. *)
Lemma feed_lines ls : forall output_lines tail,
  Forall line_ok ls ->
  (length output_lines + length ls <= 200)%nat ->
  feed (lines_stream ls ++ tail) output_lines EmptyString =
  feed tail (output_lines ++ map line_text ls) EmptyString.
Proof.
  induction ls as [|[cs t] ls IH]; intros ol tail Hok Hlen.
  - cbn. rewrite app_nil_r. reflexivity.
  - inversion Hok as [|? ? [Hnl [Hpr Hne]] Hok']; subst.
    cbn [lines_stream length map fst] in *.
    rewrite <- app_assoc, <- app_comm_cons.
    rewrite feed_line; try assumption; [|lia].
    rewrite length_app. cbn [length].
    destruct (Nat.ltb_spec 200 (length ol + 1)); [lia|].
    rewrite IH; try assumption.
    + rewrite <- app_assoc. reflexivity.
    + rewrite length_app. cbn [length]. lia.
Qed.

(** The line that makes 201 is collected too; only then the loop stops
    and adds the marker. *)
Lemma feed_line_201 cs t tail output_lines :
  length output_lines = 200%nat ->
  line_ok (cs, t) ->
  feed (cs ++ (t, Py.nl) :: tail) output_lines EmptyString =
  (Stop ExitLimit ((output_lines ++ [line_text (cs, t)]) ++ [limit_marker])
        EmptyString, tail).
Proof.
  intros Hlen [Hnl [Hpr Hne]]. cbn [fst] in *.
  rewrite feed_line; try assumption; [|lia].
  rewrite length_app, Hlen. reflexivity.
Qed.

Lemma rstrip_by_append f s m :
  Py.truthy (Py.rstrip_by f m) = true ->
  Py.rstrip_by f (s ++ m) = (s ++ Py.rstrip_by f m)%string.
Proof.
  intros Hm. induction s as [|c s IH]; cbn [append Py.rstrip_by]; [reflexivity|].
  rewrite IH.
  destruct (s ++ Py.rstrip_by f m)%string as [|d r] eqn:E; [|reflexivity].
  destruct s; cbn in E; [rewrite E in Hm|]; discriminate.
Qed.

Lemma truthy_lstrip_by_append f s r :
  Py.truthy (Py.lstrip_by f r) = true ->
  Py.truthy (Py.lstrip_by f (s ++ r)) = true.
Proof.
  intros Hr. induction s as [|c s IH]; cbn [append Py.lstrip_by]; [assumption|].
  destruct (f c); [assumption | reflexivity].
Qed.

(** A text that ends with something not blank is not blank. *)
Lemma truthy_strip_append s m :
  Py.truthy (Py.strip m) = true -> Py.truthy (Py.strip (s ++ m)) = true.
Proof.
  unfold Py.strip. intros Hm.
  rewrite rstrip_by_append.
  - apply truthy_lstrip_by_append. assumption.
  - destruct (Py.rstrip_by Py.isspace m); [discriminate Hm | reflexivity].
Qed.

Lemma join_snoc sep xs m : exists s, Py.join sep (xs ++ [m]) = (s ++ m)%string.
Proof.
  unfold Py.join. induction xs as [|x xs [s IH]].
  - exists EmptyString. reflexivity.
  - exists (x ++ sep ++ s)%string. cbn [app String.concat].
    destruct (xs ++ [m]) as [|y ys] eqn:E; [destruct xs; discriminate E|].
    rewrite IH, !append_assoc. reflexivity.
Qed.

(** The result text of an output that ends with the marker is the joined
    lines. *)
Lemma finish_output_marker command output_lines :
  finish_output command (output_lines ++ [limit_marker]) EmptyString
  = Py.join NL (output_lines ++ [limit_marker]).
Proof.
  unfold finish_output. change (Py.strip EmptyString) with EmptyString.
  cbn [Py.truthy].
  destruct (output_lines ++ [limit_marker]) as [|y ys] eqn:E;
    [destruct output_lines; discriminate E|].
  rewrite <- E. destruct (join_snoc NL output_lines limit_marker) as [s ->].
  rewrite truthy_strip_append; reflexivity.
Qed.


(** The flood of 500 lines, as lines. *)
Lemma flood_as_lines :
  stdout_pending (child flood_output Silent)
  = lines_stream (map (line_at 0) (flood_lines 500)) ++ [].
Proof. vm_compute. reflexivity. Qed.

Lemma line_okb_ok l : line_okb l = true -> line_ok l.
Proof.
  unfold line_okb, line_ok. intros H.
  apply andb_true_iff in H. destruct H as [H H3].
  apply andb_true_iff in H. destruct H as [H1 H2].
  apply negb_true_iff in H1. apply negb_true_iff in H2. auto.
Qed.

Lemma availableb_ok t cs : availableb t cs = true -> available t cs.
Proof.
  unfold availableb, available. intros H. apply Forall_forall. intros x Hx.
  rewrite forallb_forall in H. apply Z.leb_le. exact (H x Hx).
Qed.


End Truncation.

Module FloodExample.
Import Host Server Framer Examples.
Import HostFacts PyFacts FramerFacts FeedFacts ExecuteFacts.

(** The flood is made of 500 lines, none empty, no two equal. *)
Lemma flood_lines_wellformed :
  length (flood_lines 500) = 500%nat /\
  forallb Py.truthy (flood_lines 500) = true /\
  NoDup (flood_lines 500).
Proof.
  split; [reflexivity|]. split; [vm_compute; reflexivity|].
  unfold flood_lines. apply NoDup_map_NoDup_ForallPairs; [|apply seq_NoDup].
  intros i j _ _ H. unfold flood_line in H.
  injection H as H.
  apply (f_equal NilEmpty.uint_of_string) in H.
  rewrite !NilEmpty.usu in H. injection H as H.
  apply (f_equal Nat.of_uint) in H. rewrite !Unsigned.of_to in H. exact H.
Qed.

(** The flood of 500 lines, evaluated: the text returned has 202 lines,
    the first 201 lines of the child and then the marker.  Line 201 is
    still a line of the child; the marker is line 202. *)
Example flood_world_returns_202_lines :
  exists w',
    _execute_safe_command "heap" flood_world =
      (Ret (Py.join NL (flood_lines 201 ++ [limit_marker])), w') /\
    length (flood_lines 201 ++ [limit_marker]) = 202%nat /\
    nth_error (flood_lines 201 ++ [limit_marker]) 200 = Some "line 200" /\
    nth_error (flood_lines 201 ++ [limit_marker]) 201 = Some limit_marker.
Proof.
  eexists. split; [|repeat split].
  vm_compute. reflexivity.
Qed.

End FloodExample.

Module Forwarding.
Import Host Server Framer Examples.
Import HostFacts PyFacts ExecuteFacts.

(** C6 (as amended): with a non-empty argument, [malloc_chunk], [search],
    [find] and [telescope] are [_execute_safe_command] on the base command,
    a space and the argument as given; no test of the argument lies in
    between.  On a connected session with a healthy stdin that line is
    written to the child, whatever characters it holds. *)
Theorem C6_arguments_forwarded_unchecked arg w p :
  arg <> EmptyString ->
  is_connected w = true ->
  gdb_process w = Some p ->
  stdin_fault p = None ->
  (malloc_chunk arg = _execute_safe_command ("chunk " ++ arg) /\
   trace (snd (malloc_chunk arg w))
   = trace w ++ [EvWrite (("chunk " ++ arg) ++ NL); EvFlush]) /\
  (search arg = _execute_safe_command ("search " ++ arg) /\
   trace (snd (search arg w))
   = trace w ++ [EvWrite (("search " ++ arg) ++ NL); EvFlush]) /\
  (find arg = _execute_safe_command ("find " ++ arg) /\
   trace (snd (find arg w))
   = trace w ++ [EvWrite (("find " ++ arg) ++ NL); EvFlush]) /\
  (telescope arg = _execute_safe_command ("telescope " ++ arg) /\
   trace (snd (telescope arg w))
   = trace w ++ [EvWrite (("telescope " ++ arg) ++ NL); EvFlush]).
Proof.
  intros Harg Hc Hp Hin.
  unfold malloc_chunk, search, find, telescope.
  destruct arg as [|c arg]; [congruence|]. cbn [Py.truthy negb].
  repeat split; apply execute_writes_command with (p := p); assumption.
Qed.

(** An argument full of forbidden substrings: the fixed tool writes it to
    the child, while the free-form tool refuses the same command line. *)
Lemma C6_arguments_forwarded_unchecked_witness :
  trace (snd (malloc_chunk "0x1000; shell rm -rf / | sh" framing_world))
  = [EvWrite ("chunk 0x1000; shell rm -rf / | sh" ++ NL); EvFlush] /\
  fst (execute_custom_command "chunk 0x1000; shell rm -rf / | sh" framing_world)
  = Ret (msg_dangerous "rm").
Proof.
  split.
  - refine (proj2 (proj1 (C6_arguments_forwarded_unchecked
                            "0x1000; shell rm -rf / | sh" framing_world
                            (child framing_output Silent) _ _ _ _)));
      [discriminate | reflexivity | reflexivity | reflexivity].
  - vm_compute. reflexivity.
Defined.

(** C6 as stated fails on the empty argument: [malloc_chunk] returns its
    error text and writes nothing, though the session is ready. *)
Lemma C6_counterexample_empty_argument :
  malloc_chunk EmptyString framing_world = (Ret msg_no_address, framing_world) /\
  ~ In (EvWrite ("chunk " ++ NL))
       (trace (snd (malloc_chunk EmptyString framing_world))).
Proof.
  split; [reflexivity|]. cbn. tauto.
Qed.

End Forwarding.

Module Boundary.
Import Host Server Framer Examples.
Import HostFacts PyFacts Totality.

Lemma settles_bind {A B} (m : M A) (k : A -> M B) w :
  settles (m w) ->
  (forall a w', m w = (Ret a, w') -> settles (k a w')) ->
  settles (bind m k w).
Proof.
  intros Hm Hk. unfold bind.
  destruct (m w) as [[a|e|] w'] eqn:E; [apply Hk; reflexivity | exact I | exact Hm].
Qed.

Lemma returns_bind {A B} (m : M A) (k : A -> M B) w :
  returns (m w) ->
  (forall a w', m w = (Ret a, w') -> returns (k a w')) ->
  returns (bind m k w).
Proof.
  intros Hm Hk. unfold bind.
  destruct (m w) as [[a|e|] w'] eqn:E; [apply Hk; reflexivity | exact Hm | exact Hm].
Qed.

(** A [try] whose body returns or raises, with a handler that returns,
    returns. *)
Lemma returns_try_except {A} (body : M A) (handler : Exn -> M A) w :
  settles (body w) ->
  (forall e w', returns (handler e w')) ->
  returns (try_except body handler w).
Proof.
  intros Hb Hh. unfold try_except.
  destruct (body w) as [[a|e|] w'] eqn:E; [exact I | apply Hh | exact Hb].
Qed.

Lemma returns_settles {A} (r : Outcome A * World) : returns r -> settles r.
Proof. unfold returns, settles. destruct (fst r); tauto. Qed.

Lemma returns_inv {A} (r : Outcome A * World) :
  returns r -> exists a w', r = (Ret a, w').
Proof.
  destruct r as [[a|e|] w']; cbn; intros H; try contradiction. eauto.
Qed.

Lemma the_process_settles attr w : settles (the_process attr w).
Proof. unfold the_process. destruct (gdb_process w); exact I. Qed.

Lemma stdin_write_settles data w : settles (stdin_write data w).
Proof.
  unfold stdin_write. apply settles_bind; [apply the_process_settles|].
  intros p w' _. destruct (stdin_fault p); exact I.
Qed.

Lemma stdin_flush_settles w : settles (stdin_flush w).
Proof.
  unfold stdin_flush. apply settles_bind; [apply the_process_settles|].
  intros p w' _. destruct (stdin_fault p); exact I.
Qed.

Lemma terminate_settles w : settles (terminate w).
Proof.
  unfold terminate. apply settles_bind; [apply the_process_settles|].
  intros p w' _. destruct (terminate_fault p); exact I.
Qed.

Lemma poll_settles w : settles (poll w).
Proof.
  unfold poll. apply settles_bind; [apply the_process_settles|].
  intros p w' _. exact I.
Qed.

Lemma Popen_call_settles argv w : settles (Popen_call argv w).
Proof. unfold Popen_call. destruct (spawn (env w) argv); exact I. Qed.

Lemma which_gdb_settles w : settles (which_gdb w).
Proof. unfold which_gdb. destruct (run_which_gdb (env w)); exact I. Qed.

Lemma Path_home_settles w : settles (Path_home w).
Proof. unfold Path_home. destruct (home_dir (env w)); exact I. Qed.

Lemma path_exists_settles p w : settles (path_exists p w).
Proof. unfold path_exists. destruct (Path_exists (env w) p); exact I. Qed.

Lemma any_exists_settles paths : forall w, settles (any_exists paths w).
Proof.
  induction paths as [|p ps IH]; intros w; cbn [any_exists]; [exact I|].
  apply settles_bind; [apply path_exists_settles|].
  intros [|] w' _; [exact I | apply IH].
Qed.

(** Writing the command and framing the answer returns or raises. *)
Lemma send_and_frame_settles command w : settles (send_and_frame command w).
Proof.
  unfold send_and_frame.
  apply settles_bind; [apply stdin_write_settles|]. intros _ w1 _.
  apply settles_bind; [apply stdin_flush_settles|]. intros _ w2 _.
  unfold time_time, bind, gets.
  apply read_loop_settles. apply loop_bound_enough.
Qed.

Lemma _execute_safe_command_returns command w :
  returns (_execute_safe_command command w).
Proof.
  unfold _execute_safe_command. unfold bind at 1. unfold gets at 1.
  destruct (is_connected w); cbn [negb]; [|exact I].
  apply returns_try_except; [|intros; exact I].
  apply settles_bind; [apply send_and_frame_settles|].
  intros [[x ol] buf] w' _. exact I.
Qed.

Lemma check_pwndbg_connection_returns w : returns (check_pwndbg_connection w).
Proof.
  unfold check_pwndbg_connection.
  apply returns_try_except; [|intros; exact I].
  apply settles_bind; [apply which_gdb_settles|]. intros rc w1 _.
  destruct (negb (rc =? 0)); [exact I|].
  apply settles_bind; [apply Path_home_settles|]. intros h1 w2 _.
  apply settles_bind; [apply Path_home_settles|]. intros h2 w3 _.
  apply settles_bind; [apply any_exists_settles|]. intros found w4 _.
  destruct (negb found); [exact I|].
  unfold bind, gets. destruct (is_connected w4); exact I.
Qed.

Lemma start_debug_session_returns binary_path w :
  returns (start_debug_session binary_path w).
Proof.
  unfold start_debug_session. unfold bind at 1. unfold gets at 1.
  destruct (is_connected w); [exact I|].
  unfold bind at 1. unfold gets at 1.
  destruct (Py.truthy binary_path && negb _)%bool; [exact I|].
  apply returns_try_except; [|intros; exact I].
  cbv zeta.
  apply settles_bind; [apply Popen_call_settles|]. intros p w1 _.
  unfold bind at 1. unfold modify at 1.
  unfold time_time. unfold bind at 1. unfold gets at 1.
  unfold bind at 1. unfold gets at 1.
  apply settles_bind; [apply startup_loop_settles; apply loop_bound_enough|].
  intros _ w2 _.
  apply settles_bind; [apply poll_settles|]. intros [rc|] w3 _; exact I.
Qed.

Lemma stop_debug_session_returns w : returns (stop_debug_session w).
Proof.
  unfold stop_debug_session. unfold bind at 1. unfold gets at 1.
  destruct (is_connected w); cbn [negb]; [|exact I].
  apply returns_try_except; [|intros; exact I].
  unfold bind at 1. unfold gets at 1.
  apply settles_bind; [destruct (gdb_process w); [apply terminate_settles | exact I]|].
  intros _ w1 _. exact I.
Qed.

Lemma execute_custom_command_returns command w :
  returns (execute_custom_command command w).
Proof.
  unfold execute_custom_command.
  destruct (negb (Py.truthy command)); [exact I|].
  destruct (Py.split command) as [|base_command parts]; [exact I|].
  destruct (negb (Py.mem base_command ALLOWED_COMMANDS)); [exact I|].
  destruct (List.find _ dangerous_patterns); [exact I|].
  destruct (Nat.ltb 200 _); [exact I|].
  apply returns_try_except; [|intros; exact I].
  apply returns_settles.
  apply returns_bind; [apply _execute_safe_command_returns|].
  intros; exact I.
Qed.

Lemma call_returns t w : returns (call t w).
Proof.
  destruct t; cbn [call];
    try apply _execute_safe_command_returns.
  - apply check_pwndbg_connection_returns.
  - apply start_debug_session_returns.
  - apply stop_debug_session_returns.
  - unfold malloc_chunk. destruct (negb _);
      [exact I | apply _execute_safe_command_returns].
  - unfold telescope. destruct (Py.truthy _); apply _execute_safe_command_returns.
  - unfold search. destruct (negb _);
      [exact I | apply _execute_safe_command_returns].
  - unfold find. destruct (negb _);
      [exact I | apply _execute_safe_command_returns].
  - apply execute_custom_command_returns.
  - exact I.
Qed.

(** C5: every tool, on every world, returns a text: no call raises past
    the tool and none fails to return.  In particular an exception raised
    while the command is written or while the answer is read (a broken
    pipe, a failed read) is caught in [_execute_safe_command] and becomes
    the returned failure text. *)
Theorem C5_tools_always_return_text :
  (forall t w, exists text w', call t w = (Ret text, w')) /\
  (forall command w e w',
      is_connected w = true ->
      send_and_frame command w = (Raise e, w') ->
      _execute_safe_command command w
      = (Ret ("명령어 실행 실패: " ++ str_of_exn e)%string, w')).
Proof.
  split.
  - intros t w. apply returns_inv. apply call_returns.
  - intros command w e w' Hc Hf. unfold _execute_safe_command.
    unfold bind at 1. unfold gets at 1. rewrite Hc. cbn [negb].
    unfold try_except, bind. rewrite Hf. reflexivity.
Qed.

(** Two transport faults for C5: a write on a broken stdin pipe, and a
    read that fails after a first line. *)
Lemma C5_tools_always_return_text_witness :
  _execute_safe_command "heap" broken_pipe_world
    = (Ret "명령어 실행 실패: [Errno 32] Broken pipe", broken_pipe_world) /\
  fst (_execute_safe_command "heap" broken_read_world)
    = Ret "명령어 실행 실패: [Errno 5] Input/output error".
Proof.
  split.
  - refine (proj2 C5_tools_always_return_text "heap" broken_pipe_world
                  (Exception "[Errno 32] Broken pipe") broken_pipe_world _ _).
    + reflexivity.
    + vm_compute. reflexivity.
  - refine (f_equal fst
              (proj2 C5_tools_always_return_text "heap" broken_read_world
                     (Exception "[Errno 5] Input/output error")
                     (snd (send_and_frame "heap" broken_read_world)) _ _)).
    + reflexivity.
    + vm_compute. reflexivity.
Defined.

End Boundary.

(* ================================================================== *)
(** * Reading and waiting change nothing else *)
(* ================================================================== *)

Module EvolveFacts.
Import Host Server Framer Session.
Import HostFacts.

Lemma evolves_process_refl p : evolves_process p p.
Proof. repeat split. exists 0%nat. reflexivity. Qed.

Lemma evolves_refl w : evolves w w.
Proof.
  unfold evolves. repeat split; try lia.
  destruct (gdb_process w); [apply evolves_process_refl | exact I].
Qed.

Lemma skipn_skipn {A} (a b : nat) (l : list A) :
  skipn a (skipn b l) = skipn (b + a) l.
Proof.
  revert l. induction b as [|b IH]; intros l; [reflexivity|].
  destruct l as [|x l]; cbn [skipn Nat.add]; [destruct a; reflexivity | apply IH].
Qed.

Lemma evolves_process_trans p1 p2 p3 :
  evolves_process p1 p2 -> evolves_process p2 p3 -> evolves_process p1 p3.
Proof.
  intros (A1 & A2 & A3 & A4 & k1 & A5) (B1 & B2 & B3 & B4 & k2 & B5).
  repeat split; try congruence.
  exists (k1 + k2)%nat. rewrite B5, A5. apply skipn_skipn.
Qed.

Lemma evolves_trans w1 w2 w3 : evolves w1 w2 -> evolves w2 w3 -> evolves w1 w3.
Proof.
  intros (A1 & A2 & A3 & A4 & A5) (B1 & B2 & B3 & B4 & B5).
  unfold evolves. repeat split; try congruence; try lia.
  destruct (gdb_process w1), (gdb_process w2), (gdb_process w3);
    try contradiction; try exact I.
  eapply evolves_process_trans; eassumption.
Qed.

Lemma evolves_set_now t w : now w <= t -> evolves w (set_now t w).
Proof.
  intros H. unfold evolves. cbn. repeat split; try assumption.
  destruct (gdb_process w); [apply evolves_process_refl | exact I].
Qed.

Lemma only_reads_bind {A B} (m : M A) (k : A -> M B) :
  only_reads m -> (forall a, only_reads (k a)) -> only_reads (bind m k).
Proof.
  intros Hm Hk w. unfold bind. specialize (Hm w).
  destruct (m w) as [[a|e|] w']; cbn [snd] in *; try assumption.
  eapply evolves_trans; [eassumption | apply Hk].
Qed.

Lemma only_reads_ret {A} (a : A) : only_reads (ret a).
Proof. intros w. apply evolves_refl. Qed.

Lemma only_reads_gets {A} (f : World -> A) : only_reads (gets f).
Proof. intros w. apply evolves_refl. Qed.

Lemma only_reads_the_process attr : only_reads (the_process attr).
Proof.
  intros w. unfold the_process. destruct (gdb_process w); apply evolves_refl.
Qed.

Lemma only_reads_sleep d : 0 <= d -> only_reads (time_sleep d).
Proof. intros Hd w. apply evolves_set_now. lia. Qed.

Lemma only_reads_select d : 0 <= d -> only_reads (select_stdout d).
Proof.
  intros Hd w. unfold select_stdout, the_process, bind, gets, modify, ret.
  destruct (gdb_process w) as [p|]; [|apply evolves_refl].
  destruct (next_readable p) as [t|]; [destruct (t <=? now w + d)|];
    cbn [snd]; apply evolves_set_now; lia.
Qed.

Lemma only_reads_read1 : only_reads stdout_read1.
Proof.
  intros w. unfold stdout_read1, the_process, bind, gets, modify, ret, raise, diverge.
  destruct (gdb_process w) as [p|] eqn:Hp; [|apply evolves_refl].
  destruct (stdout_pending p) as [|[t c] rest] eqn:Hout.
  - destruct (stdout_end p); cbn [snd];
      try apply evolves_refl; apply evolves_set_now; lia.
  - cbn [snd]. unfold evolves. cbn. rewrite Hp. repeat split; try lia.
    exists 1%nat. rewrite Hout. reflexivity.
Qed.

(** The loop of [_execute_safe_command] only reads and waits. *)
Lemma only_reads_read_loop fuel : forall start_time output_lines buffer,
  only_reads (read_loop fuel start_time output_lines buffer).
Proof.
  induction fuel as [|fuel IH]; intros start ol buf; [intros w; apply evolves_refl|].
  cbn [read_loop].
  apply only_reads_bind; [apply only_reads_gets|]. intros t.
  destruct (t - start <? timeout); [|apply only_reads_ret].
  apply only_reads_bind; [apply only_reads_select; lia|]. intros [|].
  - apply only_reads_bind; [apply only_reads_read1|]. intros char.
    destruct (Py.truthy char); [|apply only_reads_ret].
    destruct (String.eqb char NL).
    + destruct (Py.endswith _ prompt); [apply only_reads_ret|].
      destruct (Nat.ltb 200 _); [apply only_reads_ret | apply IH].
    + destruct (Py.endswith _ prompt); [apply only_reads_ret|].
      destruct (Nat.ltb 200 _); [apply only_reads_ret | apply IH].
  - destruct (negb _ && _)%bool.
    + apply only_reads_bind; [apply only_reads_sleep; lia|]. intros _.
      apply only_reads_bind; [apply only_reads_select; lia|]. intros [|];
        [apply IH | apply only_reads_ret].
    + apply only_reads_bind; [apply only_reads_sleep; lia|]. intros _. apply IH.
Qed.

(** So does the loop of [start_debug_session]. *)
Lemma only_reads_startup_loop fuel : forall start_time buffer,
  only_reads (startup_loop fuel start_time buffer).
Proof.
  induction fuel as [|fuel IH]; intros start buf; [intros w; apply evolves_refl|].
  cbn [startup_loop].
  apply only_reads_bind; [apply only_reads_gets|]. intros t.
  destruct (t - start <? timeout); [|apply only_reads_ret].
  apply only_reads_bind; [apply only_reads_select; lia|]. intros [|].
  - apply only_reads_bind; [apply only_reads_read1|]. intros char.
    destruct (Py.truthy char); [|apply only_reads_ret].
    destruct (Py.endswith _ prompt); [apply only_reads_ret | apply IH].
  - apply only_reads_bind; [apply only_reads_sleep; lia|]. intros _. apply IH.
Qed.

End EvolveFacts.

(* ================================================================== *)
(** * What each tool does to the session *)
(* ================================================================== *)

Module ToolFacts.
Import Host Server Framer Session.
Import HostFacts Totality EvolveFacts.

(** Where [send_and_frame] leaves the world: untouched when the write
    raises, else the command line is written and flushed and the rest is
    reading and waiting. *)
Lemma send_and_frame_world command w :
  snd (send_and_frame command w) = w \/
  evolves (log EvFlush (log (EvWrite (command ++ NL)) w))
          (snd (send_and_frame command w)).
Proof.
  destruct (gdb_process w) as [p|] eqn:Hp.
  - destruct (stdin_fault p) eqn:Hin.
    + left. unfold send_and_frame, stdin_write, the_process, bind.
      rewrite Hp, Hin. reflexivity.
    + right. rewrite (ExecuteFacts.send_and_frame_healthy command w p Hp Hin).
      apply only_reads_read_loop.
  - left. unfold send_and_frame, stdin_write, the_process, bind.
    rewrite Hp. reflexivity.
Qed.

(** The world after [_execute_safe_command] is the world after
    [send_and_frame], or the same world when not connected. *)
Lemma execute_world command w :
  snd (_execute_safe_command command w) =
    if is_connected w then snd (send_and_frame command w) else w.
Proof.
  unfold _execute_safe_command. unfold bind at 1. unfold gets at 1.
  destruct (is_connected w); cbn [negb]; [|reflexivity].
  unfold try_except, bind.
  destruct (send_and_frame command w) as [[[[x ol] buf]|e|] w']; reflexivity.
Qed.

Lemma gdb_argv_eq binary_path :
  (if Py.truthy binary_path then ["gdb"; "-q"] ++ [binary_path] else ["gdb"; "-q"])
    ++ ["-ex"; "set confirm off"; "-ex"; "set pagination off"]
  = gdb_argv binary_path.
Proof. unfold gdb_argv. destruct (Py.truthy binary_path); reflexivity. Qed.

Lemma poll_snd w : snd (poll w) = w.
Proof.
  unfold poll, the_process, bind, gets, ret. destruct (gdb_process w); reflexivity.
Qed.

(** [start_debug_session] past its two guards, step by step. *)
Lemma start_past_guards binary_path w :
  is_connected w = false ->
  (Py.truthy binary_path && negb (os_path_exists (env w) binary_path))%bool = false ->
  start_debug_session binary_path w =
    match spawn (env w) (gdb_argv binary_path) with
    | inl e => (Ret (msg_start_failed e), reset w)
    | inr p =>
        let w1 := set_gdb_process (Some p) (log (EvSpawn (gdb_argv binary_path)) w) in
        match startup_loop (loop_bound w1) (now w1) EmptyString w1 with
        | (Ret _, w2) =>
            match poll w2 with
            | (Ret (Some _), _) => (Ret msg_died, reset w2)
            | (Ret None, _) => (Ret (msg_started binary_path), set_is_connected true w2)
            | (Raise e, _) => (Ret (msg_start_failed e), reset w2)
            | (Diverge, _) => (Diverge, w2)
            end
        | (Raise e, w2) => (Ret (msg_start_failed e), reset w2)
        | (Diverge, w2) => (Diverge, w2)
        end
    end.
Proof.
  intros Hc Hguard. unfold start_debug_session.
  unfold bind at 1. unfold gets at 1. rewrite Hc.
  unfold bind at 1. unfold gets at 1. rewrite Hguard.
  cbv zeta. rewrite gdb_argv_eq. fold (msg_started binary_path).
  unfold try_except. unfold bind at 1. unfold Popen_call.
  destruct (spawn (env w) (gdb_argv binary_path)) as [e|p]; [reflexivity|].
  unfold bind at 1. unfold modify at 1.
  unfold time_time. unfold bind at 1. unfold gets at 1.
  unfold bind at 1. unfold gets at 1. unfold bind at 1.
  destruct (startup_loop _ _ _ _) as [[buf|e|] w2]; try reflexivity.
  unfold bind at 1.
  pose proof (poll_snd w2) as Hsnd.
  destruct (poll w2) as [[[rc|]|e|] w3]; cbn [snd] in Hsnd; subst w3; reflexivity.
Qed.

Lemma poll_value w p :
  gdb_process w = Some p ->
  poll w = (Ret (match exit_time p with
                 | Some t => if t <=? now w then Some 0 else None
                 | None => None
                 end), w).
Proof.
  intros Hp. unfold poll, the_process, bind, gets, ret. rewrite Hp. reflexivity.
Qed.

(** The ways [start_debug_session] ends once it is past its two guards. *)
Lemma start_cases binary_path w :
  is_connected w = false ->
  (Py.truthy binary_path && negb (os_path_exists (env w) binary_path))%bool = false ->
  match spawn (env w) (gdb_argv binary_path) with
  | inl e =>
      start_debug_session binary_path w = (Ret (msg_start_failed e), reset w)
  | inr p =>
      exists w2,
        evolves (set_gdb_process (Some p) (log (EvSpawn (gdb_argv binary_path)) w)) w2 /\
        (start_debug_session binary_path w = (Ret msg_died, reset w2) /\
           (exists t, exit_time p = Some t /\ t <= now w2)
         \/
         start_debug_session binary_path w
           = (Ret (msg_started binary_path), set_is_connected true w2) /\
           (forall t, exit_time p = Some t -> now w2 < t)
         \/
         exists e, start_debug_session binary_path w = (Ret (msg_start_failed e), reset w2))
  end.
Proof.
  intros Hc Hguard. rewrite (start_past_guards _ _ Hc Hguard).
  destruct (spawn (env w) (gdb_argv binary_path)) as [e|p]; [reflexivity|].
  cbv zeta.
  set (w1 := set_gdb_process (Some p) (log (EvSpawn (gdb_argv binary_path)) w)).
  pose proof (only_reads_startup_loop (loop_bound w1) (now w1) EmptyString w1) as Hev.
  pose proof (startup_loop_settles (loop_bound w1) (now w1) EmptyString w1
                (loop_bound_enough w1)) as Hset.
  destruct (startup_loop (loop_bound w1) (now w1) EmptyString w1)
    as [[buf|e|] w2]; cbn [snd] in Hev; [| |destruct Hset].
  - exists w2. split; [exact Hev|].
    destruct Hev as (_ & _ & _ & _ & Hproc).
    cbn [gdb_process w1 set_gdb_process] in Hproc.
    destruct (gdb_process w2) as [p2|] eqn:Hp2; [|contradiction].
    destruct Hproc as (_ & _ & Hex & _).
    rewrite (poll_value _ _ Hp2), Hex.
    destruct (exit_time p) as [t|] eqn:Het.
    + destruct (Z.leb_spec t (now w2)).
      * left. split; [reflexivity|]. exists t. split; [reflexivity | assumption].
      * right. left. split; [reflexivity|]. intros t' Ht'. congruence.
    + right. left. split; [reflexivity|]. intros t' Ht'. discriminate.
  - exists w2. split; [exact Hev|]. right. right. exists e. reflexivity.
Qed.

End ToolFacts.

Module SessionFacts.
Import Host Server Framer Session Examples.
Import HostFacts Totality EvolveFacts ToolFacts.

(** The world after [_execute_safe_command]: the same, or the command
    line written and flushed and then reading and waiting. *)
Lemma execute_evolves command w :
  snd (_execute_safe_command command w) = w \/
  evolves (log EvFlush (log (EvWrite (command ++ NL)) w))
          (snd (_execute_safe_command command w)).
Proof.
  rewrite execute_world. destruct (is_connected w); [|left; reflexivity].
  apply send_and_frame_world.
Qed.

Lemma evolves_consistent w w' : evolves w w' -> consistent w -> consistent w'.
Proof.
  intros (_ & _ & Hc & _ & Hp) Hw. unfold consistent in *. rewrite Hc.
  destruct (gdb_process w), (gdb_process w'); try contradiction; [|exact Hw].
  split; intros H; [discriminate | apply Hw; discriminate].
Qed.

Lemma execute_consistent command w :
  consistent w -> consistent (snd (_execute_safe_command command w)).
Proof.
  intros Hw. destruct (execute_evolves command w) as [->|Hev]; [assumption|].
  eapply evolves_consistent; [exact Hev|]. exact Hw.
Qed.

Lemma reset_consistent w : consistent (reset w).
Proof. unfold consistent. cbn. split; [discriminate | congruence]. Qed.

Lemma leaves_world_bind {A B} (m : M A) (k : A -> M B) :
  leaves_world m -> (forall a, leaves_world (k a)) -> leaves_world (bind m k).
Proof.
  intros Hm Hk w. unfold bind. specialize (Hm w).
  destruct (m w) as [[a|e|] w']; cbn [snd] in *; subst; try reflexivity. apply Hk.
Qed.

Lemma leaves_world_try {A} (body : M A) (handler : Exn -> M A) :
  leaves_world body -> (forall e, leaves_world (handler e)) ->
  leaves_world (try_except body handler).
Proof.
  intros Hb Hh w. unfold try_except. specialize (Hb w).
  destruct (body w) as [[a|e|] w']; cbn [snd] in *; subst; try reflexivity. apply Hh.
Qed.

Lemma leaves_world_ret {A} (a : A) : leaves_world (ret a).
Proof. intros w. reflexivity. Qed.

Lemma leaves_world_any_exists paths : leaves_world (any_exists paths).
Proof.
  induction paths as [|q qs IH]; [apply leaves_world_ret|].
  cbn [any_exists]. apply leaves_world_bind.
  - intros w. unfold path_exists. destruct (Path_exists (env w) q); reflexivity.
  - intros [|]; [apply leaves_world_ret | exact IH].
Qed.

Lemma leaves_world_check : leaves_world check_pwndbg_connection.
Proof.
  unfold check_pwndbg_connection.
  apply leaves_world_try; [|intros e; apply leaves_world_ret].
  apply leaves_world_bind.
  { intros w. unfold which_gdb. destruct (run_which_gdb (env w)); reflexivity. }
  intros rc. destruct (negb (rc =? 0)); [apply leaves_world_ret|].
  assert (Hhome : leaves_world Path_home).
  { intros w. unfold Path_home. destruct (home_dir (env w)); reflexivity. }
  apply leaves_world_bind; [exact Hhome|]. intros h1.
  apply leaves_world_bind; [exact Hhome|]. intros h2.
  apply leaves_world_bind; [apply leaves_world_any_exists|]. intros found.
  destruct (negb found); [apply leaves_world_ret|].
  apply leaves_world_bind; [intros w; reflexivity|].
  intros [|]; apply leaves_world_ret.
Qed.

Lemma stop_value w :
  stop_debug_session w =
    if is_connected w then
      match gdb_process w with
      | Some p =>
          match terminate_fault p with
          | None => (Ret msg_stopped, reset (log EvTerminate w))
          | Some e => (Ret ("GDB 세션 종료 실패: " ++ str_of_exn e)%string, w)
          end
      | None => (Ret msg_stopped, reset w)
      end
    else (Ret msg_not_active, w).
Proof.
  unfold stop_debug_session, bind at 1, gets at 1.
  destruct (is_connected w); [|reflexivity]. cbn [negb].
  unfold try_except, bind at 1, gets at 1.
  destruct (gdb_process w) as [p|] eqn:Hp; [|reflexivity].
  unfold terminate.
  unfold bind at 1. unfold bind at 1. rewrite (the_process_some _ _ _ Hp).
  destruct (terminate_fault p); reflexivity.
Qed.

Lemma stop_world w :
  snd (stop_debug_session w) = w \/ snd (stop_debug_session w) = reset w \/
  snd (stop_debug_session w) = reset (log EvTerminate w).
Proof.
  rewrite stop_value. destruct (is_connected w); [|left; reflexivity].
  destruct (gdb_process w) as [p|]; [|right; left; reflexivity].
  destruct (terminate_fault p); [left | right; right]; reflexivity.
Qed.

Lemma start_consistent binary_path w :
  consistent w -> consistent (snd (start_debug_session binary_path w)).
Proof.
  intros Hw.
  destruct (is_connected w) eqn:Hc.
  { unfold start_debug_session, bind, gets. rewrite Hc. exact Hw. }
  destruct (Py.truthy binary_path && negb (os_path_exists (env w) binary_path))%bool
    eqn:Hguard.
  { unfold start_debug_session, bind, gets. rewrite Hc, Hguard. exact Hw. }
  pose proof (start_cases binary_path w Hc Hguard) as H.
  destruct (spawn (env w) (gdb_argv binary_path)) as [e|p].
  - rewrite H. apply reset_consistent.
  - destruct H as (w2 & Hev & [[-> _]|[[-> _]|[e ->]]]); cbn [snd];
      try apply reset_consistent.
    destruct Hev as (_ & _ & _ & _ & Hp). cbn [gdb_process set_gdb_process] in Hp.
    unfold consistent. cbn. destruct (gdb_process w2); [|contradiction].
    split; [discriminate | reflexivity].
Qed.

(** X1: every tool keeps the two globals in step.  If the flag is set
    exactly when a process object is held before the call, it is so after
    the call. *)
Theorem X1_tools_keep_globals_consistent t w :
  consistent w -> consistent (snd (call t w)).
Proof.
  intros Hw. destruct t; cbn [call];
    try (apply execute_consistent; exact Hw).
  - rewrite leaves_world_check. exact Hw.
  - apply start_consistent. exact Hw.
  - destruct (stop_world w) as [->|[->| ->]];
      [exact Hw | apply reset_consistent | apply reset_consistent].
  - unfold malloc_chunk. destruct (negb _); [exact Hw | apply execute_consistent; exact Hw].
  - unfold telescope. destruct (Py.truthy _); apply execute_consistent; exact Hw.
  - unfold search. destruct (negb _); [exact Hw | apply execute_consistent; exact Hw].
  - unfold find. destruct (negb _); [exact Hw | apply execute_consistent; exact Hw].
  - unfold execute_custom_command.
    destruct (negb (Py.truthy command)); [exact Hw|].
    destruct (Py.split command) as [|base_command parts]; [exact Hw|].
    destruct (negb (Py.mem base_command ALLOWED_COMMANDS)); [exact Hw|].
    destruct (List.find _ dangerous_patterns); [exact Hw|].
    destruct (Nat.ltb 200 _); [exact Hw|].
    unfold try_except, bind.
    pose proof (execute_consistent command w Hw) as H.
    destruct (_execute_safe_command command w) as [[r|e|] w']; exact H.
  - exact Hw.
Qed.

Lemma idle_world_consistent : consistent idle_world.
Proof. unfold consistent. cbn. split; [discriminate | congruence]. Qed.

Lemma X1_tools_keep_globals_consistent_witness :
  consistent (snd (call (T_start_debug_session EmptyString) idle_world)).
Proof.
  apply (X1_tools_keep_globals_consistent (T_start_debug_session EmptyString) idle_world).
  exact idle_world_consistent.
Defined.

End SessionFacts.

Module LifecycleFacts.
Import Host Server Framer Session Examples Examples3.
Import HostFacts Totality EvolveFacts ToolFacts SessionFacts.

(** X2: [_execute_safe_command] never starts or signals a process and
    never touches the flag or the host: afterwards the flag is as before,
    a process object is held exactly if one was held, the clock has not
    gone back, and the events are the same or have grown by exactly the
    write of the command line and the flush.  In particular the end of
    the child's output does not disconnect the session. *)
Theorem X2_execute_changes_only_the_pipes command w :
  env (snd (_execute_safe_command command w)) = env w /\
  is_connected (snd (_execute_safe_command command w)) = is_connected w /\
  (gdb_process (snd (_execute_safe_command command w)) = None
   <-> gdb_process w = None) /\
  now w <= now (snd (_execute_safe_command command w)) /\
  (trace (snd (_execute_safe_command command w)) = trace w \/
   trace (snd (_execute_safe_command command w))
   = trace w ++ [EvWrite (command ++ NL); EvFlush]).
Proof.
  destruct (execute_evolves command w) as [->|(He & Ht & Hc & Hn & Hp)].
  - repeat split; try tauto; try lia; left; reflexivity.
  - cbn [env trace is_connected now gdb_process log] in *.
    repeat split; try assumption.
    + destruct (gdb_process w), (gdb_process (snd (_execute_safe_command command w)));
        try contradiction; try tauto; discriminate.
    + destruct (gdb_process w), (gdb_process (snd (_execute_safe_command command w)));
        try contradiction; try tauto; discriminate.
    + right. rewrite Ht, <- app_assoc. reflexivity.
Qed.

(** X3: [start_debug_session] starts at most one process, always with
    the command line [gdb -q], the binary if one is given, and the two
    settings that switch confirmation and pagination off; it never
    signals a process, also when it gives up the one it started. *)
Theorem X3_start_spawns_once_with_fixed_flags binary_path w :
  trace (snd (start_debug_session binary_path w)) = trace w \/
  trace (snd (start_debug_session binary_path w))
  = trace w ++ [EvSpawn (["gdb"; "-q"]
                           ++ (if Py.truthy binary_path then [binary_path] else [])
                           ++ ["-ex"; "set confirm off"; "-ex"; "set pagination off"])].
Proof.
  fold (gdb_argv binary_path).
  destruct (is_connected w) eqn:Hc.
  { left. unfold start_debug_session, bind, gets. rewrite Hc. reflexivity. }
  destruct (Py.truthy binary_path && negb (os_path_exists (env w) binary_path))%bool
    eqn:Hguard.
  { left. unfold start_debug_session, bind, gets. rewrite Hc, Hguard. reflexivity. }
  pose proof (start_cases binary_path w Hc Hguard) as H.
  destruct (spawn (env w) (gdb_argv binary_path)) as [e|p].
  - left. rewrite H. reflexivity.
  - right.
    destruct H as (w2 & (_ & Ht & _) & [[-> _]|[[-> _]|[e ->]]]); exact Ht.
Qed.

(** X4: a binary path that is given and does not exist is refused before
    anything is started: the text names the path and the world is as
    before. *)
Theorem X4_start_missing_binary binary_path w :
  is_connected w = false ->
  binary_path <> EmptyString ->
  os_path_exists (env w) binary_path = false ->
  start_debug_session binary_path w
  = (Ret ("Error: 바이너리 파일을 찾을 수 없습니다: " ++ binary_path)%string, w).
Proof.
  intros Hc Hne Hex. unfold start_debug_session, bind, gets. rewrite Hc, Hex.
  destruct binary_path; [congruence | reflexivity].
Qed.

Lemma X4_start_missing_binary_witness :
  start_debug_session "/no/such/file" no_files_world
  = (Ret "Error: 바이너리 파일을 찾을 수 없습니다: /no/such/file", no_files_world).
Proof.
  apply (X4_start_missing_binary "/no/such/file" no_files_world);
    [reflexivity | discriminate | reflexivity].
Defined.

(** X5: a child that has already exited when it is started never gives a
    connected session: past the two guards, [start_debug_session] answers
    with the died text, or with the failure text when the startup loop
    raised first, and leaves no session. *)
Theorem X5_start_dead_child binary_path w p t :
  is_connected w = false ->
  (Py.truthy binary_path && negb (os_path_exists (env w) binary_path))%bool = false ->
  spawn (env w) (gdb_argv binary_path) = inr p ->
  exit_time p = Some t ->
  t <= now w ->
  (fst (start_debug_session binary_path w) = Ret msg_died \/
   exists e, fst (start_debug_session binary_path w) = Ret (msg_start_failed e)) /\
  is_connected (snd (start_debug_session binary_path w)) = false /\
  gdb_process (snd (start_debug_session binary_path w)) = None.
Proof.
  intros Hc Hguard Hs Hex Ht.
  pose proof (start_cases binary_path w Hc Hguard) as H. rewrite Hs in H.
  destruct H as (w2 & (_ & _ & _ & Hn & _) & [[-> _]|[[_ Hlive]|[e ->]]]);
    cbn [fst snd].
  - repeat split. left. reflexivity.
  - specialize (Hlive t Hex). cbn [now set_gdb_process log] in Hn. lia.
  - repeat split. right. exists e. reflexivity.
Qed.

Lemma X5_start_dead_child_witness :
  (fst (start_debug_session EmptyString dead_child_world) = Ret msg_died \/
   exists e, fst (start_debug_session EmptyString dead_child_world)
             = Ret (msg_start_failed e)) /\
  is_connected (snd (start_debug_session EmptyString dead_child_world)) = false /\
  gdb_process (snd (start_debug_session EmptyString dead_child_world)) = None.
Proof.
  apply (X5_start_dead_child EmptyString dead_child_world dead_child 0);
    try reflexivity; cbn; lia.
Defined.

(** X6: the started text and the flag go together.  On a world that is
    not connected, [start_debug_session] returns its started text exactly
    when the session is connected afterwards. *)
Theorem X6_started_text_iff_connected binary_path w :
  is_connected w = false ->
  (fst (start_debug_session binary_path w) = Ret (msg_started binary_path)
   <-> is_connected (snd (start_debug_session binary_path w)) = true).
Proof.
  intros Hc.
  assert (Hs1 : forall x, msg_started binary_path <> ("E" ++ x)%string).
  { intros x. unfold msg_started. destruct (Py.truthy binary_path); discriminate. }
  assert (Hs2 : forall x, msg_started binary_path <> ("G" ++ x)%string).
  { intros x. unfold msg_started. destruct (Py.truthy binary_path); discriminate. }
  destruct (Py.truthy binary_path && negb (os_path_exists (env w) binary_path))%bool
    eqn:Hguard.
  { unfold start_debug_session, bind, gets. rewrite Hc, Hguard. cbn [fst snd ret].
    split; intros H; [|congruence].
    injection H as H. symmetry in H. destruct (Hs1 _ H). }
  pose proof (start_cases binary_path w Hc Hguard) as H.
  destruct (spawn (env w) (gdb_argv binary_path)) as [e|p].
  - rewrite H. cbn [fst snd]. split; intros H1; [|discriminate H1].
    injection H1 as H1. symmetry in H1. destruct (Hs2 _ H1).
  - destruct H as (w2 & _ & [[-> _]|[[-> _]|[e ->]]]); cbn [fst snd].
    + split; intros H1; [|discriminate H1].
      injection H1 as H1. symmetry in H1. destruct (Hs1 _ H1).
    + split; reflexivity.
    + split; intros H1; [|discriminate H1].
      injection H1 as H1. symmetry in H1. destruct (Hs2 _ H1).
Qed.

Lemma X6_started_text_iff_connected_witness :
  fst (start_debug_session EmptyString idle_world) = Ret (msg_started EmptyString)
  <-> is_connected (snd (start_debug_session EmptyString idle_world)) = true.
Proof.
  apply (X6_started_text_iff_connected EmptyString idle_world). reflexivity.
Defined.

(** X7: [check_pwndbg_connection] only looks: the world after the call
    is the world before it, whatever the host answers, and the text that
    announces an active session comes only when the flag is set. *)
Theorem X7_check_only_looks w :
  snd (check_pwndbg_connection w) = w /\
  (fst (check_pwndbg_connection w) = Ret "✓ pwndbg MCP 서버 연결됨 (GDB 세션 활성)"
   -> is_connected w = true).
Proof.
  split; [apply leaves_world_check|].
  destruct (is_connected w) eqn:Hc; [reflexivity|]. intros H. exfalso.
  cbv [check_pwndbg_connection try_except bind which_gdb Path_home gets ret] in H.
  destruct (run_which_gdb (env w)) as [e|rc]; [discriminate H|].
  destruct (negb (rc =? 0)); [discriminate H|].
  destruct (home_dir (env w)) as [e|h]; [discriminate H|].
  destruct (home_dir (env w)) as [e|h2]; [discriminate H|].
  match type of H with
  | context [any_exists ?l w] =>
      pose proof (leaves_world_any_exists l w) as Hw;
      destruct (any_exists l w) as [[[|]|e|] w1]
  end; cbn [snd] in Hw; subst w1; cbn [negb] in H; try discriminate H.
  rewrite Hc in H. discriminate H.
Qed.

(** X8: a stop that goes through leaves nothing to stop.  When
    [terminate()] does not raise, a second [stop_debug_session] right
    after the first returns the not-active text and changes nothing, and
    the session is disconnected after both. *)
Theorem X8_stop_twice w :
  (forall p, gdb_process w = Some p -> terminate_fault p = None) ->
  is_connected (snd (stop_debug_session w)) = false /\
  stop_debug_session (snd (stop_debug_session w))
  = (Ret msg_not_active, snd (stop_debug_session w)).
Proof.
  intros Hok.
  assert (Hd : is_connected (snd (stop_debug_session w)) = false).
  { rewrite stop_value. destruct (is_connected w) eqn:Hc; [|exact Hc].
    destruct (gdb_process w) as [p|]; [|reflexivity].
    rewrite (Hok p eq_refl). reflexivity. }
  split; [exact Hd|].
  rewrite (stop_value (snd (stop_debug_session w))), Hd. reflexivity.
Qed.

Lemma X8_stop_twice_witness :
  is_connected (snd (stop_debug_session framing_world)) = false /\
  stop_debug_session (snd (stop_debug_session framing_world))
  = (Ret msg_not_active, snd (stop_debug_session framing_world)).
Proof.
  apply (X8_stop_twice framing_world). intros p Hp.
  injection Hp as <-. reflexivity.
Defined.

End LifecycleFacts.

(* ================================================================== *)
(** * How long a call takes *)
(* ================================================================== *)

Module ClockFacts.
Import Host Server Framer Session Examples.
Import HostFacts Totality EvolveFacts ToolFacts SessionFacts.

(** [select] waits [d] at most, and says ready only when the pipe is
    readable at the time it returns. *)
Lemma select_clock d w :
  0 <= d ->
  (exists e, select_stdout d w = (Raise e, w)) \/
  (exists t', now w <= t' <= now w + d /\
              readable_now (set_now t' w) /\
              select_stdout d w = (Ret true, set_now t' w)) \/
  select_stdout d w = (Ret false, set_now (now w + d) w).
Proof.
  intros Hd. unfold select_stdout, the_process, bind, gets, modify, ret.
  destruct (gdb_process w) as [p|] eqn:Hp; [|left; eauto].
  right.
  destruct (next_readable p) as [t|] eqn:Hr; [|right; reflexivity].
  destruct (Z.leb_spec t (now w + d)); [|right; reflexivity].
  left. exists (Z.max (now w) t). split; [lia|]. split; [|reflexivity].
  exists p, t. cbn. repeat split; try assumption. lia.
Qed.

(** [read(1)] on a pipe that is readable now takes no time and
    returns or raises. *)
Lemma read1_clock w :
  readable_now w ->
  now (snd (stdout_read1 w)) = now w /\ settles (stdout_read1 w).
Proof.
  intros (p & t & Hp & Hr & Ht).
  unfold stdout_read1, the_process, bind, gets, modify, ret, raise, settles.
  rewrite Hp. unfold next_readable in Hr.
  destruct (stdout_pending p) as [|[t1 c] rest].
  - destruct (stdout_end p); [discriminate| |]; injection Hr as ->; cbn; split;
      try exact I; lia.
  - injection Hr as ->. cbn. split; [lia | exact I].
Qed.

(** The loop of [_execute_safe_command] ends less than 200 ms after its
    deadline. *)
Lemma read_loop_clock fuel : forall start_time output_lines buffer w,
  now (snd (read_loop fuel start_time output_lines buffer w))
  <= Z.max (now w) (start_time + timeout + 199).
Proof.
  induction fuel as [|fuel IH]; intros start ol buf w; [cbn; lia|].
  cbn [read_loop]. unfold time_time, time_sleep.
  rewrite FuelFacts.bind_gets.
  destruct (Z.ltb_spec (now w - start) timeout) as [Hdl|]; [|cbn; lia].
  destruct (select_clock 100 w ltac:(lia)) as [[e Hs]|[[t' [Ht [Hrd Hs]]]|Hs]].
  - rewrite (bind_raise_l _ _ _ _ _ Hs). cbn. lia.
  - rewrite (bind_ret_l _ _ _ _ _ Hs).
    destruct (read1_clock _ Hrd) as [Hn _]. cbn [now set_now] in Hn.
    unfold bind.
    destruct (stdout_read1 (set_now t' w)) as [[char|e|] w2]; cbn [snd] in *;
      try lia.
    destruct (Py.truthy char); [|cbn; lia].
    destruct (String.eqb char NL).
    + destruct (Py.endswith _ prompt); [cbn; lia|].
      destruct (Nat.ltb 200 _); [cbn; lia|].
      specialize (IH start
                     (if Py.truthy (Py.rstrip_nl (buf ++ char))
                      then ol ++ [Py.rstrip_nl (buf ++ char)] else ol)
                     EmptyString w2). lia.
    + destruct (Py.endswith _ prompt); [cbn; lia|].
      destruct (Nat.ltb 200 _); [cbn; lia|].
      specialize (IH start ol (buf ++ char)%string w2). lia.
  - rewrite (bind_ret_l _ _ _ _ _ Hs).
    destruct (negb (Nat.eqb (length ol) 0) && String.eqb buf EmptyString)%bool.
    + rewrite FuelFacts.bind_modify. cbn [now set_now]. rewrite set_now_set_now.
      destruct (select_clock 10 (set_now (now w + 100 + 50) w) ltac:(lia))
        as [[e Hs2]|[[t' [Ht [Hrd Hs2]]]|Hs2]].
      * rewrite (bind_raise_l _ _ _ _ _ Hs2). cbn. lia.
      * rewrite (bind_ret_l _ _ _ _ _ Hs2). rewrite set_now_set_now.
        specialize (IH start ol buf (set_now t' w)). cbn [now set_now] in *. lia.
      * rewrite (bind_ret_l _ _ _ _ _ Hs2). cbn. lia.
    + rewrite FuelFacts.bind_modify. cbn [now set_now]. rewrite set_now_set_now.
      specialize (IH start ol buf (set_now (now w + 100 + 100) w)).
      cbn [now set_now] in *. lia.
Qed.

(** The same for the loop of [start_debug_session]. *)
Lemma startup_loop_clock fuel : forall start_time buffer w,
  now (snd (startup_loop fuel start_time buffer w))
  <= Z.max (now w) (start_time + timeout + 199).
Proof.
  induction fuel as [|fuel IH]; intros start buf w; [cbn; lia|].
  cbn [startup_loop]. unfold time_time, time_sleep.
  rewrite FuelFacts.bind_gets.
  destruct (Z.ltb_spec (now w - start) timeout) as [Hdl|]; [|cbn; lia].
  destruct (select_clock 100 w ltac:(lia)) as [[e Hs]|[[t' [Ht [Hrd Hs]]]|Hs]].
  - rewrite (bind_raise_l _ _ _ _ _ Hs). cbn. lia.
  - rewrite (bind_ret_l _ _ _ _ _ Hs).
    destruct (read1_clock _ Hrd) as [Hn _]. cbn [now set_now] in Hn.
    unfold bind.
    destruct (stdout_read1 (set_now t' w)) as [[char|e|] w2]; cbn [snd] in *;
      try lia.
    destruct (Py.truthy char); [|cbn; lia].
    destruct (Py.endswith _ prompt); [cbn; lia|].
    specialize (IH start (buf ++ char)%string w2). lia.
  - rewrite (bind_ret_l _ _ _ _ _ Hs).
    rewrite FuelFacts.bind_modify. cbn [now set_now]. rewrite set_now_set_now.
    specialize (IH start buf (set_now (now w + 100 + 100) w)).
    cbn [now set_now] in *. lia.
Qed.

Lemma execute_clock command w :
  now w <= now (snd (_execute_safe_command command w)) < now w + timeout + 200.
Proof.
  split.
  - destruct (execute_evolves command w) as [->|(_ & _ & _ & Hn & _)]; [lia|].
    exact Hn.
  - rewrite execute_world. unfold timeout.
    destruct (is_connected w); [|lia].
    destruct (gdb_process w) as [p|] eqn:Hp.
    + destruct (stdin_fault p) eqn:Hin.
      * unfold send_and_frame, stdin_write, the_process, bind.
        rewrite Hp, Hin. cbn. lia.
      * rewrite (ExecuteFacts.send_and_frame_healthy command w p Hp Hin).
        pose proof (read_loop_clock (length (stdout_pending p) + 40) (now w) []
                      EmptyString (log EvFlush (log (EvWrite (command ++ NL)) w))) as H.
        cbn [now log] in H. unfold timeout in H. lia.
    + unfold send_and_frame, stdin_write, the_process, bind. rewrite Hp. cbn. lia.
Qed.

Lemma start_clock binary_path w :
  now w <= now (snd (start_debug_session binary_path w)) < now w + timeout + 200.
Proof.
  unfold timeout.
  destruct (is_connected w) eqn:Hc.
  { unfold start_debug_session, bind, gets. rewrite Hc. cbn. lia. }
  destruct (Py.truthy binary_path && negb (os_path_exists (env w) binary_path))%bool
    eqn:Hguard.
  { unfold start_debug_session, bind, gets. rewrite Hc, Hguard. cbn. lia. }
  rewrite (start_past_guards _ _ Hc Hguard).
  destruct (spawn (env w) (gdb_argv binary_path)) as [e|p]; [cbn; lia|].
  cbv zeta.
  set (w1 := set_gdb_process (Some p) (log (EvSpawn (gdb_argv binary_path)) w)).
  pose proof (startup_loop_clock (loop_bound w1) (now w1) EmptyString w1) as Hup.
  pose proof (only_reads_startup_loop (loop_bound w1) (now w1) EmptyString w1)
    as (_ & _ & _ & Hlo & _).
  unfold timeout in Hup.
  destruct (startup_loop (loop_bound w1) (now w1) EmptyString w1) as [[buf|e|] w2];
    cbn [snd] in Hup, Hlo; subst w1; cbn [now set_gdb_process log] in Hup, Hlo;
    try (cbn; lia).
  destruct (poll w2) as [[[rc|]|e|] w3]; cbn; lia.
Qed.

(** X9: every tool call returns less than 200 ms after the five seconds
    of its loop, and the clock never goes back.  With the clock in
    milliseconds: the time after the call is at least the time before it
    and less than that time plus 5200. *)
Theorem X9_tools_return_within_budget t w :
  now w <= now (snd (call t w)) < now w + timeout + 200.
Proof.
  assert (Hsame : now w <= now w < now w + timeout + 200) by (unfold timeout; lia).
  destruct t; cbn [call]; try apply execute_clock.
  - rewrite leaves_world_check. exact Hsame.
  - apply start_clock.
  - destruct (stop_world w) as [->|[->| ->]]; exact Hsame.
  - unfold malloc_chunk. destruct (negb _); [exact Hsame | apply execute_clock].
  - unfold telescope. destruct (Py.truthy _); apply execute_clock.
  - unfold search. destruct (negb _); [exact Hsame | apply execute_clock].
  - unfold find. destruct (negb _); [exact Hsame | apply execute_clock].
  - unfold execute_custom_command.
    destruct (negb (Py.truthy command)); [exact Hsame|].
    destruct (Py.split command) as [|base_command parts]; [exact Hsame|].
    destruct (negb (Py.mem base_command ALLOWED_COMMANDS)); [exact Hsame|].
    destruct (List.find _ dangerous_patterns); [exact Hsame|].
    destruct (Nat.ltb 200 _); [exact Hsame|].
    unfold try_except, bind.
    pose proof (execute_clock command w) as H.
    destruct (_execute_safe_command command w) as [[r|e|] w']; exact H.
  - exact Hsame.
Qed.

End ClockFacts.

(* ================================================================== *)
(** * The free-form tool and the texts returned *)
(* ================================================================== *)

Module GateFacts.
Import Host Server Framer Session Examples.
Import HostFacts Boundary.

(** A command that passes the three tests is handed to
    [_execute_safe_command] as it is, and its result is framed. *)
Lemma gate_admits command base rest w :
  Py.split command = base :: rest ->
  Py.mem base ALLOWED_COMMANDS = true ->
  (forall pattern, In pattern dangerous_patterns ->
                   Py.contains pattern (Py.lower command) = false) ->
  (String.length command <= 200)%nat ->
  exists result w',
    _execute_safe_command command w = (Ret result, w') /\
    execute_custom_command command w = (Ret (custom_result command result), w').
Proof.
  intros Hsplit Hmem Hpat Hlen.
  destruct (returns_inv _ (_execute_safe_command_returns command w)) as (r & w' & Hr).
  exists r, w'. split; [exact Hr|].
  unfold execute_custom_command.
  destruct command as [|c command'] ; [discriminate Hsplit|]. cbn [Py.truthy negb].
  rewrite Hsplit, Hmem. cbn [negb].
  destruct (List.find _ dangerous_patterns) as [pattern|] eqn:Hfind.
  - apply find_some in Hfind. destruct Hfind as [Hin Hc].
    rewrite (Hpat pattern Hin) in Hc. discriminate Hc.
  - destruct (Nat.ltb_spec 200 (String.length (String c command'))); [lia|].
    unfold try_except, bind. rewrite Hr. reflexivity.
Qed.




Lemma gate_ok_admits command w :
  gate_ok command = true ->
  exists result w',
    _execute_safe_command command w = (Ret result, w') /\
    execute_custom_command command w = (Ret (custom_result command result), w').
Proof.
  unfold gate_ok. destruct (Py.split command) as [|base rest] eqn:Hsplit;
    [discriminate|].
  intros H. apply andb_true_iff in H. destruct H as [H Hlen].
  apply andb_true_iff in H. destruct H as [Hmem Hpat].
  apply (gate_admits command base rest w Hsplit Hmem).
  - intros pattern Hin. rewrite forallb_forall in Hpat.
    apply negb_true_iff. exact (Hpat pattern Hin).
  - apply Nat.leb_le. exact Hlen.
Qed.


(** X12: the whitelist and the forbidden substrings do not contradict
    each other.  Every entry of the whitelist, sent alone, is admitted:
    the call is [_execute_safe_command] on that entry and its result is
    framed. *)
Theorem X12_whitelist_entries_run command w :
  In command ALLOWED_COMMANDS ->
  exists result w',
    _execute_safe_command command w = (Ret result, w') /\
    execute_custom_command command w = (Ret (custom_result command result), w').
Proof.
  intros Hin. apply gate_ok_admits.
  assert (Hall : forallb gate_ok ALLOWED_COMMANDS = true) by (vm_compute; reflexivity).
  rewrite forallb_forall in Hall. exact (Hall command Hin).
Qed.

Lemma X12_whitelist_entries_run_witness :
  exists result w',
    _execute_safe_command "vmmap" idle_world = (Ret result, w') /\
    execute_custom_command "vmmap" idle_world = (Ret (custom_result "vmmap" result), w').
Proof.
  apply (X12_whitelist_entries_run "vmmap" idle_world).
  unfold ALLOWED_COMMANDS. repeat (try (left; reflexivity); right).
Defined.

(** X13: what [list_available_commands] prints against what the
    free-form tool runs.  The text has one bullet line for every command
    of its table, and the world is untouched.  Every command of the table
    but [largebin], sent alone, is admitted by [execute_custom_command];
    [largebin] is printed, and refused as not whitelisted (the whitelist
    has [largebins]). *)
Theorem X13_listed_commands_run_but_largebin w :
  snd (list_available_commands w) = w /\
  (forall command, In command listed_commands ->
     exists text, fst (list_available_commands w) = Ret text /\
                  Py.contains (bullet command) text = true) /\
  (forall command, In command listed_commands -> command <> "largebin" ->
     exists result w',
       _execute_safe_command command w = (Ret result, w') /\
       execute_custom_command command w = (Ret (custom_result command result), w')) /\
  In "largebin" listed_commands /\
  execute_custom_command "largebin" w = (Ret msg_not_whitelisted, w).
Proof.
  split; [reflexivity|]. split; [|split; [|split]].
  - intros command Hin. eexists. split; [reflexivity|].
    match goal with
    | |- Py.contains _ ?text = true =>
        assert (Hall : forallb (fun c => Py.contains (bullet c) text) listed_commands
                       = true) by (vm_compute; reflexivity)
    end.
    rewrite forallb_forall in Hall. exact (Hall command Hin).
  - intros command Hin Hne. apply gate_ok_admits.
    assert (Hall : forallb (fun c => String.eqb c "largebin" || gate_ok c)
                           listed_commands = true) by (vm_compute; reflexivity).
    rewrite forallb_forall in Hall. specialize (Hall command Hin).
    apply orb_true_iff in Hall. destruct Hall as [Heq|Hok]; [|exact Hok].
    apply String.eqb_eq in Heq. contradiction.
  - vm_compute. tauto.
  - reflexivity.
Qed.

End GateFacts.

Module TextFacts.
Import Host Server Framer Session Examples.
Import HostFacts Boundary.

Lemma ink_lstrip s : ink (Py.lstrip_by Py.isspace s) = ink s.
Proof.
  induction s as [|c s IH]; cbn [Py.lstrip_by ink]; [reflexivity|].
  destruct (Py.isspace c) eqn:Hc; cbn [ink negb orb]; [exact IH|].
  rewrite Hc. reflexivity.
Qed.

Lemma truthy_lstrip s : Py.truthy (Py.lstrip_by Py.isspace s) = ink s.
Proof.
  induction s as [|c s IH]; cbn [Py.lstrip_by ink]; [reflexivity|].
  destruct (Py.isspace c); [exact IH | reflexivity].
Qed.

Lemma ink_rstrip s : ink (Py.rstrip_by Py.isspace s) = ink s.
Proof.
  induction s as [|c s IH]; cbn [Py.rstrip_by ink]; [reflexivity|].
  destruct (Py.rstrip_by Py.isspace s) as [|d r].
  - rewrite <- IH. cbn [ink]. destruct (Py.isspace c) eqn:Hc; cbn; [reflexivity|].
    rewrite Hc. reflexivity.
  - rewrite <- IH. reflexivity.
Qed.

(** [s.strip()] is not empty exactly when [s] has a character that is no
    whitespace. *)
Lemma truthy_strip_ink s : Py.truthy (Py.strip s) = ink s.
Proof. unfold Py.strip. rewrite truthy_lstrip. apply ink_rstrip. Qed.

Lemma ink_strip s : ink (Py.strip s) = ink s.
Proof. unfold Py.strip. rewrite ink_lstrip. apply ink_rstrip. Qed.

Lemma ink_append a b : ink (a ++ b) = (ink a || ink b)%bool.
Proof.
  induction a as [|c a IH]; cbn [append ink]; [reflexivity|].
  rewrite IH. apply orb_assoc.
Qed.

(** The text made after the loop is never blank. *)
Lemma finish_output_ink command output_lines buffer :
  ink (finish_output command output_lines buffer) = true.
Proof.
  unfold finish_output.
  destruct (if Py.truthy (Py.strip buffer) then output_lines ++ [Py.strip buffer]
            else output_lines) as [|l ls].
  - reflexivity.
  - destruct (Py.truthy (Py.strip (Py.join NL (l :: ls)))) eqn:E.
    + rewrite truthy_strip_ink in E. exact E.
    + reflexivity.
Qed.

(** X14: [_execute_safe_command] never returns an empty or blank text:
    whatever the child writes or fails to write, the text returned has a
    character that is no whitespace. *)
Theorem X14_execute_text_never_blank command w :
  exists text w',
    _execute_safe_command command w = (Ret text, w') /\
    ink text = true /\ text <> EmptyString.
Proof.
  assert (Hne : forall s, ink s = true -> s <> EmptyString).
  { intros s H ->. discriminate H. }
  unfold _execute_safe_command. unfold bind at 1. unfold gets at 1.
  destruct (is_connected w); cbn [negb].
  - unfold try_except.
    pose proof (send_and_frame_settles command w) as Hs.
    unfold bind.
    destruct (send_and_frame command w) as [[[[x ol] buf]|e|] w']; [| |destruct Hs].
    + exists (finish_output command ol buf), w'.
      pose proof (finish_output_ink command ol buf). auto.
    + eexists _, w'. split; [reflexivity|].
      assert (ink ("명령어 실행 실패: " ++ str_of_exn e) = true) by reflexivity. auto.
  - eexists _, w. split; [reflexivity|]. split; [reflexivity | discriminate].
Qed.

End TextFacts.

(* ================================================================== *)
(** * Other ways out of the loops *)
(* ================================================================== *)

Module ExitFacts.
Import Host Server Framer Session Examples Examples3.
Import HostFacts PyFacts FramerFacts FeedFacts ExecuteFacts Totality TextFacts.

(** At the end of file the loop leaves with what it has. *)
Lemma read_loop_eof_exit fuel start_time output_lines buffer w p t :
  gdb_process w = Some p ->
  stdout_pending p = [] ->
  stdout_end p = Eof t ->
  t <= now w ->
  now w - start_time < timeout ->
  read_loop (S fuel) start_time output_lines buffer w
  = (Ret (ExitEof, output_lines, buffer), w).
Proof.
  intros Hp Hout Hend Ht Hdl.
  cbn [read_loop]. unfold time_time. rewrite FuelFacts.bind_gets.
  destruct (Z.ltb_spec (now w - start_time) timeout); [|lia].
  assert (Hsel : select_stdout 100 w = (Ret true, w)).
  { unfold select_stdout. rewrite (bind_ret_l _ _ _ _ _ (the_process_some _ _ _ Hp)).
    unfold bind, gets, modify, ret, next_readable. rewrite Hout, Hend.
    destruct (Z.leb_spec t (now w + 100)); [|lia].
    rewrite Z.max_l by lia. rewrite set_now_same. reflexivity. }
  assert (Hrd : stdout_read1 w = (Ret EmptyString, w)).
  { unfold stdout_read1. rewrite (bind_ret_l _ _ _ _ _ (the_process_some _ _ _ Hp)).
    unfold bind, gets, modify, ret. rewrite Hout, Hend.
    rewrite Z.max_l by lia. rewrite set_now_same. reflexivity. }
  rewrite (bind_ret_l _ _ _ _ _ Hsel). rewrite (bind_ret_l _ _ _ _ _ Hrd).
  reflexivity.
Qed.

(** On a silent pipe with no line collected the loop runs to its
    deadline, 200 ms at a time. *)
Lemma read_loop_silent_wait k : forall fuel start_time buffer w p,
  gdb_process w = Some p ->
  stdout_pending p = [] ->
  stdout_end p = Silent ->
  now w - start_time = timeout - 200 * Z.of_nat k ->
  (k < fuel)%nat ->
  read_loop fuel start_time [] buffer w
  = (Ret (ExitDeadline, [], buffer), set_now (start_time + timeout) w).
Proof.
  induction k as [|k IH]; intros fuel start buf w p Hp Hout Hend Hnow Hfuel;
    (destruct fuel as [|fuel]; [lia|]);
    cbn [read_loop]; unfold time_time, time_sleep; rewrite FuelFacts.bind_gets.
  - destruct (Z.ltb_spec (now w - start) timeout); [lia|].
    replace (start + timeout) with (now w) by lia. rewrite set_now_same. reflexivity.
  - destruct (Z.ltb_spec (now w - start) timeout); [|lia].
    rewrite (bind_ret_l _ _ _ _ _ (select_silent 100 _ _ Hp Hout Hend)).
    cbn [length Nat.eqb negb andb]. rewrite FuelFacts.bind_modify.
    cbn [now set_now]. rewrite set_now_set_now.
    rewrite (IH fuel start buf (set_now (now w + 100 + 100) w) p); try assumption.
    + reflexivity.
    + cbn [now set_now]. lia.
    + lia.
Qed.

(** The text for a buffer that never reached a line end. *)
Lemma finish_output_partial command buffer :
  finish_output command [] buffer =
    if ink buffer then Py.strip buffer
    else ("명령어 '" ++ command ++ "' 실행됨 (응답 없음)")%string.
Proof.
  unfold finish_output. rewrite truthy_strip_ink.
  destruct (ink buffer) eqn:E; [|reflexivity].
  cbn [app Py.join String.concat]. rewrite truthy_strip_ink, ink_strip, E.
  reflexivity.
Qed.

Section PartialOutput.

(** A connected session whose child has written [cs], a run of
    characters with no line end and no prompt, before the command is
    sent. *)
Variables (command : string) (w : World) (p : Popen).
Hypothesis Hconnected : is_connected w = true.
Hypothesis Hprocess : gdb_process w = Some p.
Hypothesis Hstdin : stdin_fault p = None.
Hypothesis Havailable : available (now w) (stdout_pending p).
Hypothesis Hline : Py.contains NL (text_of (stdout_pending p)) = false.
Hypothesis Hprompt : Py.contains prompt (text_of (stdout_pending p)) = false.

Lemma partial_output_fed :
  send_and_frame command w =
    read_loop 40 (now w) [] (text_of (stdout_pending p)) (with_pending p [] (log EvFlush (log (EvWrite (command ++ NL)) w))).
Proof.
  rewrite (send_and_frame_healthy command w p Hprocess Hstdin).
  rewrite (read_loop_feed (stdout_pending p) 40 (now w) [] EmptyString
                          (log EvFlush (log (EvWrite (command ++ NL)) w)) p []);
    try assumption.
  - rewrite <- (app_nil_r (stdout_pending p)) at 1.
    rewrite feed_plain; try assumption; [reflexivity | cbn; lia].
  - rewrite app_nil_r. reflexivity.
  - cbn. unfold timeout. lia.
Qed.



End PartialOutput.



(** One iteration of the startup loop on a character that is already
    there. *)
Lemma startup_loop_ready_step fuel start_time buffer w p t c rest :
  gdb_process w = Some p ->
  stdout_pending p = (t, c) :: rest ->
  t <= now w ->
  now w - start_time < timeout ->
  startup_loop (S fuel) start_time buffer w =
    if Py.endswith (buffer ++ Py.chr c) prompt
    then (Ret (buffer ++ Py.chr c)%string, with_pending p rest w)
    else startup_loop fuel start_time (buffer ++ Py.chr c) (with_pending p rest w).
Proof.
  intros Hp Hout Ht Hdl.
  cbn [startup_loop]. unfold time_time. rewrite FuelFacts.bind_gets.
  destruct (Z.ltb_spec (now w - start_time) timeout); [|lia].
  rewrite (bind_ret_l _ _ _ _ _ (select_available 100 _ _ _ _ _ Hp Hout Ht ltac:(lia))).
  rewrite (bind_ret_l _ _ _ _ _ (read1_available _ _ _ _ _ Hp Hout Ht)).
  cbn [Py.truthy Py.chr]. destruct (Py.endswith _ prompt); reflexivity.
Qed.

(** The startup loop on a run of characters that completes no prompt. *)
Lemma startup_loop_plain cs : forall fuel start_time buffer w p rest,
  gdb_process w = Some p ->
  stdout_pending p = cs ++ rest ->
  available (now w) cs ->
  now w - start_time < timeout ->
  Py.contains prompt (buffer ++ text_of cs) = false ->
  startup_loop (length cs + fuel) start_time buffer w =
  startup_loop fuel start_time (buffer ++ text_of cs) (with_pending p rest w).
Proof.
  induction cs as [|[t c] cs IH]; intros fuel start buf w p rest Hp Hout Hav Hdl Hpr.
  - cbn in *. rewrite <- Hout, with_pending_same by assumption.
    rewrite append_empty_r. reflexivity.
  - inversion Hav as [|? ? Ht Hav']; subst. cbn in Ht.
    cbn [length Nat.add]. rewrite <- app_comm_cons in Hout.
    rewrite text_of_cons in Hpr.
    rewrite (startup_loop_ready_step _ _ _ _ _ _ _ (cs ++ rest) Hp Hout Ht Hdl).
    rewrite (not_contains_not_endswith _ _ (text_of cs))
      by (rewrite append_chr; exact Hpr).
    rewrite (IH fuel start (buf ++ Py.chr c)%string (with_pending p (cs ++ rest) w)
                (set_stdout (cs ++ rest) p) rest); try reflexivity; try assumption.
    + rewrite text_of_cons, append_chr. reflexivity.
    + rewrite append_chr. exact Hpr.
Qed.



End ExitFacts.
